(** * OpenRCT2: the UI input manager and the multi-dimension coaster descriptors

    A shallow embedding of
    - [src/openrct2-ui/input/InputManager.cpp], the queue-and-dispatch layer
      between SDL device events and the shortcut, console, chat and
      text-input collaborators, and
    - [src/openrct2/ride/coaster/meta/MultiDimensionRollerCoaster.h], the two
      ride type descriptors of the multi-dimension roller coaster.

    Machine integers are [Z] with the wrap-around written out; a window or
    joystick pointer is an [option] whose [None] is [nullptr]; the
    collaborators the input manager calls are recorded in a call log and may
    change the world in any way. *)

From Stdlib Require Import ZArith List Bool String Lia.
Import ListNotations.
Local Open Scope Z_scope.

(* ===================================================================== *)
(** * Machine integers *)

Definition wrap32 (z : Z) : Z := z mod 2 ^ 32.

Definition wrap8 (z : Z) : Z := z mod 2 ^ 8.

(** C's [a & b] used as a condition. *)
Definition test_bits (a b : Z) : bool := negb (Z.land a b =? 0).

(* ===================================================================== *)
(** * SDL2: the constants of its public headers that the source names *)

Definition SDL_JOYHATMOTION : Z := 0x602.
Definition SDL_JOYBUTTONDOWN : Z := 0x603.
Definition SDL_JOYBUTTONUP : Z := 0x604.

Definition SDL_HAT_CENTERED : Z := 0.

Definition KMOD_SHIFT : Z := 0x0003.
Definition KMOD_CTRL : Z := 0x00C0.
Definition KMOD_ALT : Z := 0x0300.
Definition KMOD_GUI : Z := 0x0C00.

(** [SDL_SCANCODE_TO_KEYCODE(X)] is [X | (1 << 30)]. *)
Definition SDL_SCANCODE_TO_KEYCODE (x : Z) : Z := Z.lor x (Z.shiftl 1 30).

Definition SDLK_RETURN : Z := 13.
Definition SDLK_ESCAPE : Z := 27.
Definition SDLK_PAGEUP : Z := SDL_SCANCODE_TO_KEYCODE 75.
Definition SDLK_PAGEDOWN : Z := SDL_SCANCODE_TO_KEYCODE 78.
Definition SDLK_DOWN : Z := SDL_SCANCODE_TO_KEYCODE 81.
Definition SDLK_UP : Z := SDL_SCANCODE_TO_KEYCODE 82.
Definition SDLK_KP_ENTER : Z := SDL_SCANCODE_TO_KEYCODE 88.

(** The members of the [SDL_Event] union that [QueueInputEvent] reads:
    [e.type], [e.jhat.value] and [e.jbutton.button]. *)
Record SDL_Event := {
  type : Z;
  jhat_value : Z;
  jbutton_button : Z
}.

(** An opened joystick ([SDL_Joystick*], never null) and a window
    ([rct_window*], never null); the nullable pointers are [option]s. *)
Definition SDL_Joystick := nat.
Definition rct_window := nat.

(* ===================================================================== *)
(** * The types of InputManager.h and of the collaborators' headers

    These headers are outside the excerpt. The types are given as the source
    uses them: the enumerations whose members it selects, each in a module
    named after its [enum class], and the structs whose fields it reads or
    writes. *)

Module InputDeviceKind.
Inductive t := Mouse | Keyboard | JoyButton | JoyHat.
Definition eqb (a b : t) : bool :=
  match a, b with
  | Mouse, Mouse | Keyboard, Keyboard
  | JoyButton, JoyButton | JoyHat, JoyHat => true
  | _, _ => false
  end.
End InputDeviceKind.

Module InputEventState.
Inductive t := Down | Release.
Definition eqb (a b : t) : bool :=
  match a, b with
  | Down, Down | Release, Release => true
  | _, _ => false
  end.
End InputEventState.

Record InputEvent := {
  DeviceKind : InputDeviceKind.t;
  Modifiers : Z;
  Button : Z;
  State : InputEventState.t
}.

Module ConsoleInput.
Inductive t :=
  None | LineClear | LineExecute | HistoryPrevious | HistoryNext
| ScrollPrevious | ScrollNext.
Definition eqb (a b : t) : bool :=
  match a, b with
  | None, None | LineClear, LineClear | LineExecute, LineExecute
  | HistoryPrevious, HistoryPrevious | HistoryNext, HistoryNext
  | ScrollPrevious, ScrollPrevious | ScrollNext, ScrollNext => true
  | _, _ => false
  end.
End ConsoleInput.

Module ChatInput.
Inductive t := None | Send | Close.
Definition eqb (a b : t) : bool :=
  match a, b with
  | None, None | Send, Send | Close, Close => true
  | _, _ => false
  end.
End ChatInput.

Module InputState.
Inductive t :=
  Reset | Normal | WidgetPressed | PositioningWindow | ViewportRight
| DropdownActive | ViewportLeft | ScrollLeft | Resizing | ScrollRight.
Definition is_Normal (a : t) : bool :=
  match a with Normal => true | _ => false end.
End InputState.

Module VirtualFloorStyles.
Inductive t := Off | Clear | Glassy.
Definition is_Off (a : t) : bool :=
  match a with Off => true | _ => false end.
End VirtualFloorStyles.

Record ScreenCoordsXY := { x : Z; y : Z }.

(** The identifier of a shortcut, as [ShortcutManager] keys them. *)
Definition ShortcutId := string.

(** The private members of [InputManager]. [_lastJoystickCheck] is a
    [uint32_t], the type of the [SDL_GetTicks] value stored in it. *)
Record InputManager := {
  _lastJoystickCheck : Z;
  _joysticks : list SDL_Joystick;
  _events : list InputEvent;
  _viewScroll : ScreenCoordsXY
}.

(* ===================================================================== *)
(** * The world outside the input manager *)

(** What the input manager reads: the game's globals, the window list, the
    console and SDL's device state. *)
Record World := {
  gScreenFlags : Z;
  gChatOpen : bool;
  gUsingWidgetTextBox : bool;
  gInputPlaceObjectModifier : Z;
  edge_scrolling : bool;
  virtual_floor_style : VirtualFloorStyles.t;
  console_IsOpen : bool;
  window_get_main : option rct_window;
  window_find_by_class : Z -> option rct_window;
  input_get_state : InputState.t;
  SDL_GetTicks : Z;
  SDL_GetModState : Z;
  SDL_NumJoysticks : Z;
  SDL_JoystickOpen : Z -> option SDL_Joystick
}.

Definition set_gInputPlaceObjectModifier (v : Z) (w : World) : World :=
  {| gScreenFlags := gScreenFlags w;
     gChatOpen := gChatOpen w;
     gUsingWidgetTextBox := gUsingWidgetTextBox w;
     gInputPlaceObjectModifier := v;
     edge_scrolling := edge_scrolling w;
     virtual_floor_style := virtual_floor_style w;
     console_IsOpen := console_IsOpen w;
     window_get_main := window_get_main w;
     window_find_by_class := window_find_by_class w;
     input_get_state := input_get_state w;
     SDL_GetTicks := SDL_GetTicks w;
     SDL_GetModState := SDL_GetModState w;
     SDL_NumJoysticks := SDL_NumJoysticks w;
     SDL_JoystickOpen := SDL_JoystickOpen w |}.

(** What the input manager does to the world: a call of a collaborator,
    with its arguments. A window argument is the pointer as passed, null
    included. *)
Inductive Call :=
| Call_SDL_JoystickOpen (i : Z)
| Call_virtual_floor_enable
| Call_virtual_floor_disable
| Call_window_unfollow_sprite (w : option rct_window)
| Call_InputScrollViewport (scroll : ScreenCoordsXY)
| Call_GameHandleEdgeScroll
| Call_ProcessEventForSpecificShortcut (e : InputEvent) (id : ShortcutId)
| Call_ProcessEvent (e : InputEvent)
| Call_window_text_input_key (w : option rct_window) (key : Z)
| Call_console_Input (input : ConsoleInput.t)
| Call_chat_input (input : ChatInput.t).

(** The constants of headers outside this excerpt, the build's target and
    the behaviour of the collaborators: how the world reacts to a call, and
    whether the shortcut manager consumes an event offered for one
    shortcut. *)
Class Platform := {
  SCREEN_FLAGS_TITLE_DEMO : Z;
  PLACE_OBJECT_MODIFIER_NONE : Z;
  PLACE_OBJECT_MODIFIER_SHIFT_Z : Z;
  PLACE_OBJECT_MODIFIER_COPY_Z : Z;
  WC_TEXTINPUT : Z;
  SHORTCUT_ID_DEBUG_CONSOLE : ShortcutId;
  __MACOSX__ : bool;
  react : Call -> World -> World;
  shortcut_consumes : InputEvent -> ShortcutId -> World -> bool
}.

(* ===================================================================== *)
(** * The state monad of the embedding *)

Record Machine := {
  self : InputManager;
  world : World;
  calls : list Call
}.

Definition M (A : Type) : Type := Machine -> A * Machine.

Definition ret {A} (a : A) : M A := fun m => (a, m).

Definition bind {A B} (c : M A) (k : A -> M B) : M B :=
  fun m => let (a, m') := c m in k a m'.

Declare Scope machine_scope.
Delimit Scope machine_scope with machine.
Notation "v <- c ;; k" := (bind c (fun v => k))
  (at level 61, c at next level, right associativity) : machine_scope.
Notation "c ;; k" := (bind c (fun _ => k))
  (at level 61, right associativity) : machine_scope.
Local Open Scope machine_scope.

Definition exec {A} (c : M A) (m : Machine) : Machine := snd (c m).

(** Reading a global or querying a collaborator. *)
Definition ask {A} (f : World -> A) : M A := fun m => (f (world m), m).

(** Reading a member of the input manager. *)
Definition member {A} (f : InputManager -> A) : M A := fun m => (f (self m), m).

Definition update_self (f : InputManager -> InputManager) : M unit :=
  fun m => (tt, {| self := f (self m); world := world m; calls := calls m |}).

Definition update_world (f : World -> World) : M unit :=
  fun m => (tt, {| self := self m; world := f (world m); calls := calls m |}).

Definition when (b : bool) (c : M unit) : M unit := if b then c else ret tt.

(* ===================================================================== *)
(** * InputManager.cpp *)

Definition push_event (e : InputEvent) (s : InputManager) : InputManager :=
  {| _lastJoystickCheck := _lastJoystickCheck s;
     _joysticks := _joysticks s;
     _events := _events s ++ [e];
     _viewScroll := _viewScroll s |}.

Definition pop_event (s : InputManager) : InputManager :=
  {| _lastJoystickCheck := _lastJoystickCheck s;
     _joysticks := _joysticks s;
     _events := tl (_events s);
     _viewScroll := _viewScroll s |}.

Definition set_lastJoystickCheck (tick : Z) (s : InputManager) : InputManager :=
  {| _lastJoystickCheck := tick;
     _joysticks := _joysticks s;
     _events := _events s;
     _viewScroll := _viewScroll s |}.

Definition clear_joysticks (s : InputManager) : InputManager :=
  {| _lastJoystickCheck := _lastJoystickCheck s;
     _joysticks := [];
     _events := _events s;
     _viewScroll := _viewScroll s |}.

Definition push_back_joystick (j : SDL_Joystick) (s : InputManager) : InputManager :=
  {| _lastJoystickCheck := _lastJoystickCheck s;
     _joysticks := _joysticks s ++ [j];
     _events := _events s;
     _viewScroll := _viewScroll s |}.

Definition is_not_null {A} (p : option A) : bool :=
  match p with Some _ => true | None => false end.

Section Operations.

Context {P : Platform}.

(** A call of a collaborator: it is logged, and the world reacts. *)
Definition call (c : Call) : M unit :=
  fun m => (tt, {| self := self m;
                   world := react c (world m);
                   calls := calls m ++ [c] |}).

Definition do_SDL_JoystickOpen (i : Z) : M (option SDL_Joystick) :=
  joystick <- ask (fun w => SDL_JoystickOpen w i) ;;
  call (Call_SDL_JoystickOpen i) ;;
  ret joystick.

Definition ProcessEventForSpecificShortcut
    (e : InputEvent) (id : ShortcutId) : M bool :=
  consumed <- ask (shortcut_consumes e id) ;;
  call (Call_ProcessEventForSpecificShortcut e id) ;;
  ret consumed.

(** [void InputManager::QueueInputEvent(InputEvent&& e)] *)
Definition QueueInputEvent (e : InputEvent) : M unit :=
  update_self (push_event e).

(** [void InputManager::QueueInputEvent(const SDL_Event& e)] *)
Definition QueueInputEvent_SDL (e : SDL_Event) : M unit :=
  if type e =? SDL_JOYHATMOTION then
    when (negb (jhat_value e =? SDL_HAT_CENTERED))
      (modifiers <- ask SDL_GetModState ;;
       QueueInputEvent {| DeviceKind := InputDeviceKind.JoyHat;
                          Modifiers := modifiers;
                          Button := jhat_value e;
                          State := InputEventState.Down |})
  else if type e =? SDL_JOYBUTTONDOWN then
    modifiers <- ask SDL_GetModState ;;
    QueueInputEvent {| DeviceKind := InputDeviceKind.JoyButton;
                       Modifiers := modifiers;
                       Button := jbutton_button e;
                       State := InputEventState.Down |}
  else if type e =? SDL_JOYBUTTONUP then
    modifiers <- ask SDL_GetModState ;;
    QueueInputEvent {| DeviceKind := InputDeviceKind.JoyButton;
                       Modifiers := modifiers;
                       Button := jbutton_button e;
                       State := InputEventState.Release |}
  else ret tt.

Definition CHECK_INTERVAL_MS : Z := 5000.

(** The [for] loop of [CheckJoysticks]: [n] iterations are left, the next
    one opens joystick [i]. *)
Fixpoint CheckJoysticks_loop (n : nat) (i : Z) : M unit :=
  match n with
  | O => ret tt
  | S n' =>
      joystick <- do_SDL_JoystickOpen i ;;
      match joystick with
      | Some j => update_self (push_back_joystick j)
      | None => ret tt
      end ;;
      CheckJoysticks_loop n' (i + 1)
  end.

(** [void InputManager::CheckJoysticks()]; the sum is a [uint32_t]. *)
Definition CheckJoysticks : M unit :=
  tick <- ask SDL_GetTicks ;;
  last <- member _lastJoystickCheck ;;
  when (tick >? wrap32 (last + CHECK_INTERVAL_MS))
    (update_self (set_lastJoystickCheck tick) ;;
     update_self clear_joysticks ;;
     numJoysticks <- ask SDL_NumJoysticks ;;
     CheckJoysticks_loop (Z.to_nat numJoysticks) 0).

(** [gInputPlaceObjectModifier |= v] on the [uint8_t] global. *)
Definition or_gInputPlaceObjectModifier (v : Z) : M unit :=
  update_world (fun w =>
    set_gInputPlaceObjectModifier
      (wrap8 (Z.lor (gInputPlaceObjectModifier w) v)) w).

(** [void InputManager::HandleModifiers()] *)
Definition HandleModifiers : M unit :=
  modifiers <- ask SDL_GetModState ;;
  update_world (set_gInputPlaceObjectModifier PLACE_OBJECT_MODIFIER_NONE) ;;
  when (test_bits modifiers KMOD_SHIFT)
    (or_gInputPlaceObjectModifier PLACE_OBJECT_MODIFIER_SHIFT_Z) ;;
  when (test_bits modifiers KMOD_CTRL)
    (or_gInputPlaceObjectModifier PLACE_OBJECT_MODIFIER_COPY_Z) ;;
  when (test_bits modifiers KMOD_ALT)
    (or_gInputPlaceObjectModifier 4) ;;
  when (__MACOSX__ && test_bits modifiers KMOD_GUI)
    (or_gInputPlaceObjectModifier 8) ;;
  style <- ask virtual_floor_style ;;
  when (negb (VirtualFloorStyles.is_Off style))
    (modifier <- ask gInputPlaceObjectModifier ;;
     if test_bits modifier
          (Z.lor PLACE_OBJECT_MODIFIER_COPY_Z PLACE_OBJECT_MODIFIER_SHIFT_Z)
     then call Call_virtual_floor_enable
     else call Call_virtual_floor_disable).

(** [void InputManager::HandleViewScrolling()]. In the condition of the
    first [if], [&&] binds tighter than [||]. *)
Definition HandleViewScrolling : M unit :=
  flags <- ask gScreenFlags ;;
  if test_bits flags SCREEN_FLAGS_TITLE_DEMO then ret tt else
  open <- ask console_IsOpen ;;
  if open then ret tt else
  mainWindow <- ask window_get_main ;;
  viewScroll <- member _viewScroll ;;
  when ((is_not_null mainWindow && negb (x viewScroll =? 0))
        || negb (y viewScroll =? 0))
    (call (Call_window_unfollow_sprite mainWindow)) ;;
  call (Call_InputScrollViewport viewScroll) ;;
  edge <- ask edge_scrolling ;;
  when edge
    (state <- ask input_get_state ;;
     if negb (InputState.is_Normal state) then ret tt else
     modifier <- ask gInputPlaceObjectModifier ;;
     if test_bits modifier
          (Z.lor PLACE_OBJECT_MODIFIER_SHIFT_Z PLACE_OBJECT_MODIFIER_COPY_Z)
     then ret tt
     else call Call_GameHandleEdgeScroll).

(** The value of [input] after the [switch] of [ProcessInGameConsole]. *)
Definition ProcessInGameConsole_switch (button : Z) : ConsoleInput.t :=
  if button =? SDLK_ESCAPE then ConsoleInput.LineClear
  else if (button =? SDLK_RETURN) || (button =? SDLK_KP_ENTER)
    then ConsoleInput.LineExecute
  else if button =? SDLK_UP then ConsoleInput.HistoryPrevious
  else if button =? SDLK_DOWN then ConsoleInput.HistoryNext
  else if button =? SDLK_PAGEUP then ConsoleInput.ScrollPrevious
  else if button =? SDLK_PAGEDOWN then ConsoleInput.ScrollNext
  else ConsoleInput.None.

(** [void InputManager::ProcessInGameConsole(const InputEvent& e)] *)
Definition ProcessInGameConsole (e : InputEvent) : M unit :=
  when (InputDeviceKind.eqb (DeviceKind e) InputDeviceKind.Keyboard
        && InputEventState.eqb (State e) InputEventState.Release)
    (let input := ProcessInGameConsole_switch (Button e) in
     when (negb (ConsoleInput.eqb input ConsoleInput.None))
       (call (Call_console_Input input))).

(** The value of [input] after the [switch] of [ProcessChat]. *)
Definition ProcessChat_switch (button : Z) : ChatInput.t :=
  if button =? SDLK_ESCAPE then ChatInput.Close
  else if (button =? SDLK_RETURN) || (button =? SDLK_KP_ENTER)
    then ChatInput.Send
  else ChatInput.None.

(** [void InputManager::ProcessChat(const InputEvent& e)] *)
Definition ProcessChat (e : InputEvent) : M unit :=
  when (InputDeviceKind.eqb (DeviceKind e) InputDeviceKind.Keyboard
        && InputEventState.eqb (State e) InputEventState.Release)
    (let input := ProcessChat_switch (Button e) in
     when (negb (ChatInput.eqb input ChatInput.None))
       (call (Call_chat_input input))).

(** [void InputManager::Process(const InputEvent& e)] *)
Definition Process_InputEvent (e : InputEvent) : M unit :=
  if InputDeviceKind.eqb (DeviceKind e) InputDeviceKind.Keyboard then
    open <- ask console_IsOpen ;;
    if open then
      consumed <- ProcessEventForSpecificShortcut e SHORTCUT_ID_DEBUG_CONSOLE ;;
      when (negb consumed) (ProcessInGameConsole e)
    else
      chat <- ask gChatOpen ;;
      if chat then ProcessChat e
      else if InputDeviceKind.eqb (DeviceKind e) InputDeviceKind.Keyboard then
        w <- ask (fun wd => window_find_by_class wd WC_TEXTINPUT) ;;
        if is_not_null w then
          when (InputEventState.eqb (State e) InputEventState.Release)
            (call (Call_window_text_input_key w (Button e)))
        else
          widget <- ask gUsingWidgetTextBox ;;
          if widget then ret tt else call (Call_ProcessEvent e)
      else call (Call_ProcessEvent e)
  else call (Call_ProcessEvent e).

(** [void InputManager::ProcessEvents()]: one unit of fuel per test of the
    [while] condition. *)
Fixpoint ProcessEvents (fuel : nat) (m : Machine) : option Machine :=
  match fuel with
  | O => None
  | S fuel' =>
      match _events (self m) with
      | [] => Some m
      | e :: _ =>
          ProcessEvents fuel'
            (exec (Process_InputEvent e ;; update_self pop_event) m)
      end
  end.

(** [void InputManager::Process()] *)
Definition Process (fuel : nat) (m : Machine) : option Machine :=
  match ProcessEvents fuel (exec (CheckJoysticks ;; HandleModifiers) m) with
  | Some m' => Some (exec HandleViewScrolling m')
  | None => None
  end.

End Operations.

(* ===================================================================== *)
(** * Concrete platforms and machines, for running the embedding *)

(** A platform whose collaborators leave the world as it is and whose
    shortcut manager declines every event. *)
Definition still_platform : Platform :=
  {| SCREEN_FLAGS_TITLE_DEMO := 1;
     PLACE_OBJECT_MODIFIER_NONE := 0;
     PLACE_OBJECT_MODIFIER_SHIFT_Z := 1;
     PLACE_OBJECT_MODIFIER_COPY_Z := 2;
     WC_TEXTINPUT := 113;
     SHORTCUT_ID_DEBUG_CONSOLE := "debug.console"%string;
     __MACOSX__ := false;
     react := fun _ w => w;
     shortcut_consumes := fun _ _ _ => false |}.

(** In play, nothing open, no window, no joystick, at tick 0. *)
Definition quiet_world : World :=
  {| gScreenFlags := 0;
     gChatOpen := false;
     gUsingWidgetTextBox := false;
     gInputPlaceObjectModifier := 0;
     edge_scrolling := false;
     virtual_floor_style := VirtualFloorStyles.Off;
     console_IsOpen := false;
     window_get_main := Datatypes.None;
     window_find_by_class := fun _ => Datatypes.None;
     input_get_state := InputState.Normal;
     SDL_GetTicks := 0;
     SDL_GetModState := 0;
     SDL_NumJoysticks := 0;
     SDL_JoystickOpen := fun _ => Datatypes.None |}.

Definition fresh_manager : InputManager :=
  {| _lastJoystickCheck := 0;
     _joysticks := [];
     _events := [];
     _viewScroll := {| x := 0; y := 0 |} |}.

Definition boot (s : InputManager) (w : World) : Machine :=
  {| self := s; world := w; calls := [] |}.

Definition key (button : Z) (state : InputEventState.t) : InputEvent :=
  {| DeviceKind := InputDeviceKind.Keyboard;
     Modifiers := 0;
     Button := button;
     State := state |}.

(* ===================================================================== *)
(** * MultiDimensionRollerCoaster.h *)

(** The functions the descriptors point to. *)
Inductive Function :=
| get_track_paint_function_multi_dimension_rc
| ride_ratings_calculate_multi_dimension_roller_coaster.

(** The fields of [RideTypeDescriptor] that the two descriptors set. A
    brace-initialised member is the list (or tuple) of its initialisers, a
    function pointer is an [option] whose [None] is [nullptr]. *)
Record RideTypeDescriptor := {
  AlternateType : Z;
  Category : Z;
  EnabledTrackPieces : Z;
  ExtraTrackPieces : Z;
  CoveredTrackPieces : Z;
  StartTrackPiece : Z;
  TrackPaintFunction : option Function;
  Flags : Z;
  RideModes : Z;
  DefaultMode : Z;
  OperatingSettings : list Z;
  Naming : Z * Z;
  NameConvention : Z * Z * Z;
  EnumName : string;
  AvailableBreakdowns : Z;
  Heights : list Z;
  MaxMass : Z;
  LiftData : Z * Z * Z;
  RatingsCalculationFunction : option Function;
  RatingsMultipliers : list Z;
  UpkeepCosts : list Z;
  BuildCosts : list Z;
  DefaultPrices : list Z;
  DefaultMusic : Z;
  PhotoItem : Z;
  BonusValue : Z;
  ColourPresets : list (Z * Z * Z);
  ColourPreview : Z * Z;
  ColourKey : Z
}.

(** The enumerators and flag constants of sprites.h, RideData.h, ShopItem.h
    and Track.h that the descriptors name. *)
Class RideData := {
  RIDE_TYPE_MULTI_DIMENSION_ROLLER_COASTER_ALT : Z;
  RIDE_TYPE_NULL : Z;
  RIDE_CATEGORY_ROLLERCOASTER : Z;
  RIDE_CATEGORY_NONE : Z;
  TRACK_STRAIGHT : Z;
  TRACK_STATION_END : Z;
  TRACK_LIFT_HILL : Z;
  TRACK_FLAT_ROLL_BANKING : Z;
  TRACK_SLOPE : Z;
  TRACK_SLOPE_STEEP : Z;
  TRACK_S_BEND : Z;
  TRACK_CURVE_SMALL : Z;
  TRACK_CURVE : Z;
  TRACK_HELIX_SMALL : Z;
  TRACK_BRAKES : Z;
  TRACK_ON_RIDE_PHOTO : Z;
  TRACK_SLOPE_VERTICAL : Z;
  TRACK_BLOCK_BRAKES : Z;
  TRACK_INLINE_TWIST_UNINVERTED : Z;
  TRACK_INLINE_TWIST_INVERTED : Z;
  TRACK_QUARTER_LOOP_UNINVERTED : Z;
  TRACK_QUARTER_LOOP_INVERTED : Z;
  TRACK_ELEM_END_STATION : Z;
  RIDE_TYPE_FLAGS_TRACK_HAS_3_COLOURS : Z;
  RIDE_TYPE_FLAG_HAS_LEAVE_WHEN_ANOTHER_VEHICLE_ARRIVES_AT_STATION : Z;
  RIDE_TYPE_FLAGS_COMMON_COASTER : Z;
  RIDE_TYPE_FLAGS_COMMON_COASTER_NON_ALT : Z;
  RIDE_TYPE_FLAG_HAS_LARGE_CURVES : Z;
  RIDE_TYPE_FLAG_HAS_ALTERNATIVE_TRACK_TYPE : Z;
  RIDE_TYPE_FLAG_PEEP_CHECK_GFORCES : Z;
  RIDE_TYPE_FLAG_ALLOW_MULTIPLE_CIRCUITS : Z;
  RIDE_MODE_CONTINUOUS_CIRCUIT : Z;
  RIDE_MODE_CONTINUOUS_CIRCUIT_BLOCK_SECTIONED : Z;
  STR_RIDE_NAME_MULTI_DIMENSION_ROLLER_COASTER : Z;
  STR_RIDE_DESCRIPTION_MULTI_DIMENSION_ROLLER_COASTER : Z;
  STR_RIDE_NAME_38 : Z;
  STR_RIDE_DESCRIPTION_UNKNOWN : Z;
  RIDE_COMPONENT_TYPE_TRAIN : Z;
  RIDE_COMPONENT_TYPE_TRACK : Z;
  RIDE_COMPONENT_TYPE_STATION : Z;
  BREAKDOWN_SAFETY_CUT_OUT : Z;
  BREAKDOWN_RESTRAINTS_STUCK_CLOSED : Z;
  BREAKDOWN_RESTRAINTS_STUCK_OPEN : Z;
  BREAKDOWN_VEHICLE_MALFUNCTION : Z;
  BREAKDOWN_BRAKES_FAILURE : Z;
  SoundId_LiftFrictionWheels : Z;
  MUSIC_STYLE_ROCK_STYLE_3 : Z;
  SHOP_ITEM_PHOTO2 : Z;
  COLOUR_BRIGHT_PINK : Z;
  COLOUR_YELLOW : Z;
  COLOUR_LIGHT_PURPLE : Z;
  COLOUR_BRIGHT_RED : Z;
  COLOUR_BORDEAUX_RED : Z;
  COLOUR_WHITE : Z;
  SPR_RIDE_DESIGN_PREVIEW_MULTI_DIMENSION_ROLLER_COASTER_TRACK : Z;
  SPR_RIDE_DESIGN_PREVIEW_MULTI_DIMENSION_ROLLER_COASTER_SUPPORTS : Z;
  RideColourKey_Ride : Z
}.

(** [1ULL << n] and [1 << n], for the enumerators of a bit set. *)
Definition bit (n : Z) : Z := Z.shiftl 1 n.

Declare Scope cbits_scope.
Delimit Scope cbits_scope with cbits.
Infix ".|" := Z.lor (at level 50, left associativity) : cbits_scope.

Section Descriptors.

Context {D : RideData}.
Local Open Scope cbits_scope.

Definition MultiDimensionRollerCoasterRTD : RideTypeDescriptor :=
  {| AlternateType := RIDE_TYPE_MULTI_DIMENSION_ROLLER_COASTER_ALT;
     Category := RIDE_CATEGORY_ROLLERCOASTER;
     EnabledTrackPieces :=
       bit TRACK_STRAIGHT .| bit TRACK_STATION_END .| bit TRACK_LIFT_HILL
       .| bit TRACK_FLAT_ROLL_BANKING .| bit TRACK_SLOPE
       .| bit TRACK_SLOPE_STEEP .| bit TRACK_S_BEND .| bit TRACK_CURVE_SMALL
       .| bit TRACK_CURVE .| bit TRACK_HELIX_SMALL .| bit TRACK_BRAKES
       .| bit TRACK_ON_RIDE_PHOTO .| bit TRACK_SLOPE_VERTICAL
       .| bit TRACK_BLOCK_BRAKES .| bit TRACK_INLINE_TWIST_UNINVERTED
       .| bit TRACK_QUARTER_LOOP_UNINVERTED;
     ExtraTrackPieces := 0;
     CoveredTrackPieces := 0;
     StartTrackPiece := TRACK_ELEM_END_STATION;
     TrackPaintFunction := Some get_track_paint_function_multi_dimension_rc;
     Flags :=
       RIDE_TYPE_FLAGS_TRACK_HAS_3_COLOURS
       .| RIDE_TYPE_FLAG_HAS_LEAVE_WHEN_ANOTHER_VEHICLE_ARRIVES_AT_STATION
       .| RIDE_TYPE_FLAGS_COMMON_COASTER
       .| RIDE_TYPE_FLAGS_COMMON_COASTER_NON_ALT
       .| RIDE_TYPE_FLAG_HAS_LARGE_CURVES
       .| RIDE_TYPE_FLAG_HAS_ALTERNATIVE_TRACK_TYPE
       .| RIDE_TYPE_FLAG_PEEP_CHECK_GFORCES
       .| RIDE_TYPE_FLAG_ALLOW_MULTIPLE_CIRCUITS;
     RideModes :=
       bit RIDE_MODE_CONTINUOUS_CIRCUIT
       .| bit RIDE_MODE_CONTINUOUS_CIRCUIT_BLOCK_SECTIONED;
     DefaultMode := RIDE_MODE_CONTINUOUS_CIRCUIT;
     OperatingSettings := [10; 27; 30; 25; 25; 0];
     Naming := (STR_RIDE_NAME_MULTI_DIMENSION_ROLLER_COASTER,
                STR_RIDE_DESCRIPTION_MULTI_DIMENSION_ROLLER_COASTER);
     NameConvention := (RIDE_COMPONENT_TYPE_TRAIN, RIDE_COMPONENT_TYPE_TRACK,
                        RIDE_COMPONENT_TYPE_STATION);
     EnumName := "RIDE_TYPE_MULTI_DIMENSION_ROLLER_COASTER";
     AvailableBreakdowns :=
       bit BREAKDOWN_SAFETY_CUT_OUT .| bit BREAKDOWN_RESTRAINTS_STUCK_CLOSED
       .| bit BREAKDOWN_RESTRAINTS_STUCK_OPEN
       .| bit BREAKDOWN_VEHICLE_MALFUNCTION .| bit BREAKDOWN_BRAKES_FAILURE;
     Heights := [40; 24; 8; 11];
     MaxMass := 78;
     LiftData := (SoundId_LiftFrictionWheels, 4, 6);
     RatingsCalculationFunction :=
       Some ride_ratings_calculate_multi_dimension_roller_coaster;
     RatingsMultipliers := [50; 30; 10];
     UpkeepCosts := [75; 20; 90; 11; 3; 15];
     BuildCosts := [180; 5; 50];
     DefaultPrices := [20; 20];
     DefaultMusic := MUSIC_STYLE_ROCK_STYLE_3;
     PhotoItem := SHOP_ITEM_PHOTO2;
     BonusValue := 100;
     ColourPresets :=
       [ (COLOUR_BRIGHT_PINK, COLOUR_YELLOW, COLOUR_YELLOW);
         (COLOUR_LIGHT_PURPLE, COLOUR_BRIGHT_RED, COLOUR_BRIGHT_RED);
         (COLOUR_BORDEAUX_RED, COLOUR_WHITE, COLOUR_WHITE) ];
     ColourPreview :=
       (SPR_RIDE_DESIGN_PREVIEW_MULTI_DIMENSION_ROLLER_COASTER_TRACK,
        SPR_RIDE_DESIGN_PREVIEW_MULTI_DIMENSION_ROLLER_COASTER_SUPPORTS);
     ColourKey := RideColourKey_Ride |}.

Definition MultiDimensionRollerCoasterAltRTD : RideTypeDescriptor :=
  {| AlternateType := RIDE_TYPE_NULL;
     Category := RIDE_CATEGORY_NONE;
     EnabledTrackPieces :=
       bit TRACK_STRAIGHT .| bit TRACK_FLAT_ROLL_BANKING .| bit TRACK_SLOPE
       .| bit TRACK_SLOPE_STEEP .| bit TRACK_S_BEND .| bit TRACK_CURVE_SMALL
       .| bit TRACK_CURVE .| bit TRACK_BRAKES .| bit TRACK_ON_RIDE_PHOTO
       .| bit TRACK_SLOPE_VERTICAL .| bit TRACK_BLOCK_BRAKES
       .| bit TRACK_INLINE_TWIST_INVERTED .| bit TRACK_QUARTER_LOOP_INVERTED;
     ExtraTrackPieces := 0;
     CoveredTrackPieces := 0;
     StartTrackPiece := TRACK_ELEM_END_STATION;
     TrackPaintFunction := None;
     Flags :=
       RIDE_TYPE_FLAGS_TRACK_HAS_3_COLOURS
       .| RIDE_TYPE_FLAG_HAS_LEAVE_WHEN_ANOTHER_VEHICLE_ARRIVES_AT_STATION
       .| RIDE_TYPE_FLAGS_COMMON_COASTER
       .| RIDE_TYPE_FLAG_HAS_LARGE_CURVES;
     RideModes :=
       bit RIDE_MODE_CONTINUOUS_CIRCUIT
       .| bit RIDE_MODE_CONTINUOUS_CIRCUIT_BLOCK_SECTIONED;
     DefaultMode := RIDE_MODE_CONTINUOUS_CIRCUIT;
     OperatingSettings := [10; 27; 30; 25; 25; 0];
     Naming := (STR_RIDE_NAME_38, STR_RIDE_DESCRIPTION_UNKNOWN);
     NameConvention := (RIDE_COMPONENT_TYPE_TRAIN, RIDE_COMPONENT_TYPE_TRACK,
                        RIDE_COMPONENT_TYPE_STATION);
     EnumName := "RIDE_TYPE_MULTI_DIMENSION_ROLLER_COASTER_ALT";
     AvailableBreakdowns :=
       bit BREAKDOWN_SAFETY_CUT_OUT .| bit BREAKDOWN_RESTRAINTS_STUCK_CLOSED
       .| bit BREAKDOWN_RESTRAINTS_STUCK_OPEN
       .| bit BREAKDOWN_VEHICLE_MALFUNCTION .| bit BREAKDOWN_BRAKES_FAILURE;
     Heights := [40; 24; 8; 11];
     MaxMass := 78;
     LiftData := (SoundId_LiftFrictionWheels, 4, 6);
     RatingsCalculationFunction :=
       Some ride_ratings_calculate_multi_dimension_roller_coaster;
     RatingsMultipliers := [50; 30; 10];
     UpkeepCosts := [75; 20; 90; 11; 3; 15];
     BuildCosts := [180; 5; 50];
     DefaultPrices := [20; 20];
     DefaultMusic := MUSIC_STYLE_ROCK_STYLE_3;
     PhotoItem := SHOP_ITEM_PHOTO2;
     BonusValue := 100;
     ColourPresets :=
       [ (COLOUR_BRIGHT_PINK, COLOUR_YELLOW, COLOUR_YELLOW);
         (COLOUR_LIGHT_PURPLE, COLOUR_BRIGHT_RED, COLOUR_BRIGHT_RED);
         (COLOUR_BORDEAUX_RED, COLOUR_WHITE, COLOUR_WHITE) ];
     ColourPreview :=
       (SPR_RIDE_DESIGN_PREVIEW_MULTI_DIMENSION_ROLLER_COASTER_TRACK,
        SPR_RIDE_DESIGN_PREVIEW_MULTI_DIMENSION_ROLLER_COASTER_SUPPORTS);
     ColourKey := RideColourKey_Ride |}.

End Descriptors.

(* ===================================================================== *)
(** * Observations on runs *)

(** The machine [m] with another input manager. *)
Definition with_self (s : InputManager) (m : Machine) : Machine :=
  {| self := s; world := world m; calls := calls m |}.

Definition clear_events (s : InputManager) : InputManager :=
  {| _lastJoystickCheck := _lastJoystickCheck s;
     _joysticks := _joysticks s;
     _events := [];
     _viewScroll := _viewScroll s |}.

(** The calls that running [c] from [m] adds to the log. *)
Definition emitted {A} (c : M A) (m : Machine) : list Call :=
  skipn (List.length (calls m)) (calls (exec c m)).

Section Runs.

Context {P : Platform}.

(** One [QueueInputEvent] per event, in the order of the list. *)
Definition queue_all (es : list InputEvent) : M unit :=
  fold_right (fun e k => QueueInputEvent e ;; k) (ret tt) es.

(** The events dispatched one after the other, first to last, each once. *)
Definition dispatch_all (es : list InputEvent) (m : Machine) : Machine :=
  fold_left (fun m' e => exec (Process_InputEvent e) m') es m.

End Runs.

(** The main window is gone and the view scrolls vertically only. *)
Definition vertical_scroll_manager : InputManager :=
  {| _lastJoystickCheck := 0;
     _joysticks := [];
     _events := [];
     _viewScroll := {| x := 0; y := 1 |} |}.

(** The joysticks were last scanned 1000 ms before the tick counter wraps;
    joystick 3 was open then. *)
Definition late_manager : InputManager :=
  {| _lastJoystickCheck := 4294966296;
     _joysticks := [3%nat];
     _events := [];
     _viewScroll := {| x := 0; y := 0 |} |}.

(** 500 ms after that scan, with one joystick attached, which opens as 7. *)
Definition late_world : World :=
  {| gScreenFlags := 0;
     gChatOpen := false;
     gUsingWidgetTextBox := false;
     gInputPlaceObjectModifier := 0;
     edge_scrolling := false;
     virtual_floor_style := VirtualFloorStyles.Off;
     console_IsOpen := false;
     window_get_main := None;
     window_find_by_class := fun _ => None;
     input_get_state := InputState.Normal;
     SDL_GetTicks := 4294966796;
     SDL_GetModState := 0;
     SDL_NumJoysticks := 1;
     SDL_JoystickOpen := fun _ => Some 7%nat |}.

(** A text-input window (window 5) is open and nothing else is. *)
Definition typing_world : World :=
  {| gScreenFlags := 0;
     gChatOpen := false;
     gUsingWidgetTextBox := false;
     gInputPlaceObjectModifier := 0;
     edge_scrolling := false;
     virtual_floor_style := VirtualFloorStyles.Off;
     console_IsOpen := false;
     window_get_main := Some 1%nat;
     window_find_by_class := fun _ => Some 5%nat;
     input_get_state := InputState.Normal;
     SDL_GetTicks := 0;
     SDL_GetModState := 0;
     SDL_NumJoysticks := 0;
     SDL_JoystickOpen := fun _ => None |}.

(** One [QueueInputEvent(const SDL_Event&)] per SDL event, in the order of
    the list, as the event pump calls it. *)
Definition queue_all_SDL (es : list SDL_Event) : M unit :=
  fold_right (fun e k => QueueInputEvent_SDL e ;; k) (ret tt) es.

(** The indices [0 .. n-1] that the loop of [CheckJoysticks] runs through. *)
Definition joystick_indices (n : nat) : list Z := map Z.of_nat (seq 0 n).

(** The joysticks among the first [n] that open in the world [w], in index
    order. *)
Definition opened_joysticks (w : World) (n : nat) : list SDL_Joystick :=
  flat_map (fun i => match SDL_JoystickOpen w i with
                     | Some j => [j]
                     | None => []
                     end)
    (joystick_indices n).

(** The keys that stand for a console action. *)
Definition console_key (input : ConsoleInput.t) (button : Z) : Prop :=
  match input with
  | ConsoleInput.None => False
  | ConsoleInput.LineClear => button = SDLK_ESCAPE
  | ConsoleInput.LineExecute => button = SDLK_RETURN \/ button = SDLK_KP_ENTER
  | ConsoleInput.HistoryPrevious => button = SDLK_UP
  | ConsoleInput.HistoryNext => button = SDLK_DOWN
  | ConsoleInput.ScrollPrevious => button = SDLK_PAGEUP
  | ConsoleInput.ScrollNext => button = SDLK_PAGEDOWN
  end.

(** The keys that stand for a chat action. *)
Definition chat_key (input : ChatInput.t) (button : Z) : Prop :=
  match input with
  | ChatInput.None => False
  | ChatInput.Close => button = SDLK_ESCAPE
  | ChatInput.Send => button = SDLK_RETURN \/ button = SDLK_KP_ENTER
  end.

(** Three joysticks are attached, the tick is 6000; the second does not
    open. *)
Definition joystick_world : World :=
  {| gScreenFlags := 0;
     gChatOpen := false;
     gUsingWidgetTextBox := false;
     gInputPlaceObjectModifier := 0;
     edge_scrolling := false;
     virtual_floor_style := VirtualFloorStyles.Off;
     console_IsOpen := false;
     window_get_main := None;
     window_find_by_class := fun _ => None;
     input_get_state := InputState.Normal;
     SDL_GetTicks := 6000;
     SDL_GetModState := 0;
     SDL_NumJoysticks := 3;
     SDL_JoystickOpen := fun i => if i =? 1 then None else Some (Z.to_nat (10 + i)) |}.

(** Shift and Alt are held; the virtual floor is shown as glass. *)
Definition shift_alt_world : World :=
  {| gScreenFlags := 0;
     gChatOpen := false;
     gUsingWidgetTextBox := false;
     gInputPlaceObjectModifier := 2;
     edge_scrolling := false;
     virtual_floor_style := VirtualFloorStyles.Glassy;
     console_IsOpen := false;
     window_get_main := None;
     window_find_by_class := fun _ => None;
     input_get_state := InputState.Normal;
     SDL_GetTicks := 0;
     SDL_GetModState := 0x0101;
     SDL_NumJoysticks := 0;
     SDL_JoystickOpen := fun _ => None |}.

(** The console is open and nothing else is. *)
Definition console_world : World :=
  {| gScreenFlags := 0;
     gChatOpen := false;
     gUsingWidgetTextBox := false;
     gInputPlaceObjectModifier := 0;
     edge_scrolling := false;
     virtual_floor_style := VirtualFloorStyles.Off;
     console_IsOpen := true;
     window_get_main := Some 1%nat;
     window_find_by_class := fun _ => None;
     input_get_state := InputState.Normal;
     SDL_GetTicks := 0;
     SDL_GetModState := 0;
     SDL_NumJoysticks := 0;
     SDL_JoystickOpen := fun _ => None |}.

(** Chat is open and nothing else is. *)
Definition chat_world : World :=
  {| gScreenFlags := 0;
     gChatOpen := true;
     gUsingWidgetTextBox := false;
     gInputPlaceObjectModifier := 0;
     edge_scrolling := false;
     virtual_floor_style := VirtualFloorStyles.Off;
     console_IsOpen := false;
     window_get_main := Some 1%nat;
     window_find_by_class := fun _ => None;
     input_get_state := InputState.Normal;
     SDL_GetTicks := 0;
     SDL_GetModState := 0;
     SDL_NumJoysticks := 0;
     SDL_JoystickOpen := fun _ => None |}.

(** In play with a main window, edge scrolling on, the view scrolling by
    (3, 0). *)
Definition edge_world : World :=
  {| gScreenFlags := 0;
     gChatOpen := false;
     gUsingWidgetTextBox := false;
     gInputPlaceObjectModifier := 0;
     edge_scrolling := true;
     virtual_floor_style := VirtualFloorStyles.Off;
     console_IsOpen := false;
     window_get_main := Some 1%nat;
     window_find_by_class := fun _ => None;
     input_get_state := InputState.Normal;
     SDL_GetTicks := 0;
     SDL_GetModState := 0;
     SDL_NumJoysticks := 0;
     SDL_JoystickOpen := fun _ => None |}.

Definition horizontal_scroll_manager : InputManager :=
  {| _lastJoystickCheck := 0;
     _joysticks := [];
     _events := [];
     _viewScroll := {| x := 3; y := 0 |} |}.

(** An assignment of values to the constants of the ride headers, with
    the enumerators of each enumeration told apart. *)
Definition sample_ride_data : RideData :=
  {| RIDE_TYPE_MULTI_DIMENSION_ROLLER_COASTER_ALT := 88;
     RIDE_TYPE_NULL := 255;
     RIDE_CATEGORY_ROLLERCOASTER := 2;
     RIDE_CATEGORY_NONE := 255;
     TRACK_STRAIGHT := 1;
     TRACK_STATION_END := 2;
     TRACK_LIFT_HILL := 3;
     TRACK_FLAT_ROLL_BANKING := 6;
     TRACK_SLOPE := 8;
     TRACK_SLOPE_STEEP := 9;
     TRACK_S_BEND := 13;
     TRACK_CURVE_SMALL := 15;
     TRACK_CURVE := 16;
     TRACK_HELIX_SMALL := 21;
     TRACK_BRAKES := 24;
     TRACK_ON_RIDE_PHOTO := 26;
     TRACK_SLOPE_VERTICAL := 28;
     TRACK_BLOCK_BRAKES := 38;
     TRACK_INLINE_TWIST_UNINVERTED := 48;
     TRACK_INLINE_TWIST_INVERTED := 49;
     TRACK_QUARTER_LOOP_UNINVERTED := 50;
     TRACK_QUARTER_LOOP_INVERTED := 51;
     TRACK_ELEM_END_STATION := 1;
     RIDE_TYPE_FLAGS_TRACK_HAS_3_COLOURS := 7;
     RIDE_TYPE_FLAG_HAS_LEAVE_WHEN_ANOTHER_VEHICLE_ARRIVES_AT_STATION := 8;
     RIDE_TYPE_FLAGS_COMMON_COASTER := 48;
     RIDE_TYPE_FLAGS_COMMON_COASTER_NON_ALT := 192;
     RIDE_TYPE_FLAG_HAS_LARGE_CURVES := 256;
     RIDE_TYPE_FLAG_HAS_ALTERNATIVE_TRACK_TYPE := 512;
     RIDE_TYPE_FLAG_PEEP_CHECK_GFORCES := 1024;
     RIDE_TYPE_FLAG_ALLOW_MULTIPLE_CIRCUITS := 2048;
     RIDE_MODE_CONTINUOUS_CIRCUIT := 1;
     RIDE_MODE_CONTINUOUS_CIRCUIT_BLOCK_SECTIONED := 34;
     STR_RIDE_NAME_MULTI_DIMENSION_ROLLER_COASTER := 100;
     STR_RIDE_DESCRIPTION_MULTI_DIMENSION_ROLLER_COASTER := 200;
     STR_RIDE_NAME_38 := 101;
     STR_RIDE_DESCRIPTION_UNKNOWN := 201;
     RIDE_COMPONENT_TYPE_TRAIN := 0;
     RIDE_COMPONENT_TYPE_TRACK := 1;
     RIDE_COMPONENT_TYPE_STATION := 2;
     BREAKDOWN_SAFETY_CUT_OUT := 0;
     BREAKDOWN_RESTRAINTS_STUCK_CLOSED := 1;
     BREAKDOWN_RESTRAINTS_STUCK_OPEN := 2;
     BREAKDOWN_VEHICLE_MALFUNCTION := 5;
     BREAKDOWN_BRAKES_FAILURE := 6;
     SoundId_LiftFrictionWheels := 1;
     MUSIC_STYLE_ROCK_STYLE_3 := 1;
     SHOP_ITEM_PHOTO2 := 1;
     COLOUR_BRIGHT_PINK := 1;
     COLOUR_YELLOW := 2;
     COLOUR_LIGHT_PURPLE := 3;
     COLOUR_BRIGHT_RED := 4;
     COLOUR_BORDEAUX_RED := 5;
     COLOUR_WHITE := 6;
     SPR_RIDE_DESIGN_PREVIEW_MULTI_DIMENSION_ROLLER_COASTER_TRACK := 1;
     SPR_RIDE_DESIGN_PREVIEW_MULTI_DIMENSION_ROLLER_COASTER_SUPPORTS := 2;
     RideColourKey_Ride := 0 |}.

(** [a] has no bit that [b] lacks. *)
Definition bits_subset (a b : Z) : Prop := Z.land a b = a.

(** The consumers of an input event. The offer of an event for the
    debug-console shortcut and the console's text input are the two steps of
    the console's route. *)
Inductive Consumer :=
| Consumer_console
| Consumer_chat
| Consumer_text_input
| Consumer_shortcuts.

(** The consumer a call goes to; the calls of the frame's other duties go
    to none. *)
Definition consumer_of (c : Call) : option Consumer :=
  match c with
  | Call_ProcessEventForSpecificShortcut _ _ => Some Consumer_console
  | Call_console_Input _ => Some Consumer_console
  | Call_chat_input _ => Some Consumer_chat
  | Call_window_text_input_key _ _ => Some Consumer_text_input
  | Call_ProcessEvent _ => Some Consumer_shortcuts
  | _ => None
  end.

(** The console and chat are both open. *)
Definition console_chat_world : World :=
  {| gScreenFlags := 0;
     gChatOpen := true;
     gUsingWidgetTextBox := false;
     gInputPlaceObjectModifier := 0;
     edge_scrolling := false;
     virtual_floor_style := VirtualFloorStyles.Off;
     console_IsOpen := true;
     window_get_main := Some 1%nat;
     window_find_by_class := fun _ => None;
     input_get_state := InputState.Normal;
     SDL_GetTicks := 0;
     SDL_GetModState := 0;
     SDL_NumJoysticks := 0;
     SDL_JoystickOpen := fun _ => None |}.

(** A widget text box is in use; there is no text-input window, and console
    and chat are closed. *)
Definition text_box_world : World :=
  {| gScreenFlags := 0;
     gChatOpen := false;
     gUsingWidgetTextBox := true;
     gInputPlaceObjectModifier := 0;
     edge_scrolling := false;
     virtual_floor_style := VirtualFloorStyles.Off;
     console_IsOpen := false;
     window_get_main := Some 1%nat;
     window_find_by_class := fun _ => None;
     input_get_state := InputState.Normal;
     SDL_GetTicks := 0;
     SDL_GetModState := 0;
     SDL_NumJoysticks := 0;
     SDL_JoystickOpen := fun _ => None |}.

(* ===================================================================== *)
(** * The monad and the call log *)

Ltac run :=
  repeat (progress
    (unfold when, exec, bind, ret, ask, member, update_self, update_world,
       call, with_self;
     cbn [fst snd self world calls])).


Lemma InputDeviceKind_eqb_eq (a b : InputDeviceKind.t) :
  InputDeviceKind.eqb a b = true <-> a = b.
Proof. destruct a, b; cbn; split; congruence. Qed.

Lemma InputEventState_eqb_eq (a b : InputEventState.t) :
  InputEventState.eqb a b = true <-> a = b.
Proof. destruct a, b; cbn; split; congruence. Qed.

Lemma not_Keyboard_eqb (k : InputDeviceKind.t) :
  k <> InputDeviceKind.Keyboard ->
  InputDeviceKind.eqb k InputDeviceKind.Keyboard = false.
Proof. destruct k; cbn; congruence. Qed.

Lemma not_Release_eqb (s : InputEventState.t) :
  s <> InputEventState.Release ->
  InputEventState.eqb s InputEventState.Release = false.
Proof. destruct s; cbn; congruence. Qed.

Lemma skipn_length_app {A} (l d : list A) : skipn (List.length l) (l ++ d) = d.
Proof. induction l as [|a l IH]; cbn; auto. Qed.

(** A run whose log is the old one followed by [d] has emitted [d]. *)
Lemma emitted_intro {A} (c : M A) (m : Machine) (d : list Call) :
  calls (exec c m) = calls m ++ d -> emitted c m = d.
Proof. unfold emitted. intros ->. apply skipn_length_app. Qed.

Lemma emitted_nothing {A} (c : M A) (m : Machine) :
  exec c m = m -> emitted c m = [].
Proof.
  intros E. apply emitted_intro. rewrite E. symmetry. apply app_nil_r.
Qed.

Lemma exec_seq {A B} (c : M A) (k : M B) (m : Machine) :
  exec (c ;; k) m = exec k (exec c m).
Proof. unfold exec, bind. destruct (c m); reflexivity. Qed.

Lemma with_self_self (m : Machine) : with_self (self m) m = m.
Proof. destruct m; reflexivity. Qed.

Section Theory.

Context {P : Platform}.

Lemma emitted_call {A} (c : M A) (m : Machine) (k : Call) :
  exec c m = exec (call k) m -> emitted c m = [k].
Proof. intros E. apply emitted_intro. rewrite E. reflexivity. Qed.

(* ------------------------------------------------------------------- *)
(** ** The key maps of the console and of chat *)

Lemma ProcessInGameConsole_on_release (e : InputEvent) (m : Machine) :
  DeviceKind e = InputDeviceKind.Keyboard ->
  State e = InputEventState.Release ->
  exec (ProcessInGameConsole e) m =
    match ProcessInGameConsole_switch (Button e) with
    | ConsoleInput.None => m
    | input => exec (call (Call_console_Input input)) m
    end.
Proof.
  intros K R. unfold ProcessInGameConsole. rewrite K, R. cbn.
  destruct (ProcessInGameConsole_switch (Button e)); reflexivity.
Qed.

Lemma ProcessInGameConsole_ignores (e : InputEvent) (m : Machine) :
  DeviceKind e <> InputDeviceKind.Keyboard \/
  State e <> InputEventState.Release ->
  exec (ProcessInGameConsole e) m = m.
Proof.
  intros [K | R]; unfold ProcessInGameConsole.
  - rewrite (not_Keyboard_eqb _ K). reflexivity.
  - rewrite (not_Release_eqb _ R), andb_false_r. reflexivity.
Qed.

Lemma ProcessChat_on_release (e : InputEvent) (m : Machine) :
  DeviceKind e = InputDeviceKind.Keyboard ->
  State e = InputEventState.Release ->
  exec (ProcessChat e) m =
    match ProcessChat_switch (Button e) with
    | ChatInput.None => m
    | input => exec (call (Call_chat_input input)) m
    end.
Proof.
  intros K R. unfold ProcessChat. rewrite K, R. cbn.
  destruct (ProcessChat_switch (Button e)); reflexivity.
Qed.

Lemma ProcessChat_ignores (e : InputEvent) (m : Machine) :
  DeviceKind e <> InputDeviceKind.Keyboard \/
  State e <> InputEventState.Release ->
  exec (ProcessChat e) m = m.
Proof.
  intros [K | R]; unfold ProcessChat.
  - rewrite (not_Keyboard_eqb _ K). reflexivity.
  - rewrite (not_Release_eqb _ R), andb_false_r. reflexivity.
Qed.

(** The [switch] of [ProcessInGameConsole] falls through to [None] on
    every key that is none of its seven labels. *)
Lemma ProcessInGameConsole_switch_other (button : Z) :
  button <> SDLK_ESCAPE -> button <> SDLK_RETURN ->
  button <> SDLK_KP_ENTER -> button <> SDLK_UP -> button <> SDLK_DOWN ->
  button <> SDLK_PAGEUP -> button <> SDLK_PAGEDOWN ->
  ProcessInGameConsole_switch button = ConsoleInput.None.
Proof.
  intros. unfold ProcessInGameConsole_switch.
  repeat match goal with
         | H : button <> ?k |- _ => apply Z.eqb_neq in H; rewrite H; clear H
         end.
  reflexivity.
Qed.

Lemma ProcessChat_switch_other (button : Z) :
  button <> SDLK_ESCAPE -> button <> SDLK_RETURN ->
  button <> SDLK_KP_ENTER ->
  ProcessChat_switch button = ChatInput.None.
Proof.
  intros. unfold ProcessChat_switch.
  repeat match goal with
         | H : button <> ?k |- _ => apply Z.eqb_neq in H; rewrite H; clear H
         end.
  reflexivity.
Qed.

(** C5. While the console is open, [ProcessInGameConsole] forwards a
    console action only for a keyboard Release: ESCAPE gives LineClear,
    RETURN and KP_ENTER give LineExecute, UP HistoryPrevious, DOWN
    HistoryNext, PAGEUP ScrollPrevious and PAGEDOWN ScrollNext, each as the
    single call [console.Input]; any other key, any state other than
    Release and any device other than the keyboard leave the machine as it
    was, so no console input is produced. *)
Theorem ProcessInGameConsole_key_map (e : InputEvent) (m : Machine) :
  let forwards input :=
    exec (ProcessInGameConsole e) m = exec (call (Call_console_Input input)) m
    /\ emitted (ProcessInGameConsole e) m = [Call_console_Input input] in
  let nothing :=
    exec (ProcessInGameConsole e) m = m
    /\ emitted (ProcessInGameConsole e) m = [] in
  (DeviceKind e = InputDeviceKind.Keyboard /\
   State e = InputEventState.Release ->
     (Button e = SDLK_ESCAPE -> forwards ConsoleInput.LineClear)
     /\ (Button e = SDLK_RETURN \/ Button e = SDLK_KP_ENTER ->
           forwards ConsoleInput.LineExecute)
     /\ (Button e = SDLK_UP -> forwards ConsoleInput.HistoryPrevious)
     /\ (Button e = SDLK_DOWN -> forwards ConsoleInput.HistoryNext)
     /\ (Button e = SDLK_PAGEUP -> forwards ConsoleInput.ScrollPrevious)
     /\ (Button e = SDLK_PAGEDOWN -> forwards ConsoleInput.ScrollNext)
     /\ (Button e <> SDLK_ESCAPE -> Button e <> SDLK_RETURN ->
         Button e <> SDLK_KP_ENTER -> Button e <> SDLK_UP ->
         Button e <> SDLK_DOWN -> Button e <> SDLK_PAGEUP ->
         Button e <> SDLK_PAGEDOWN -> nothing))
  /\ (DeviceKind e <> InputDeviceKind.Keyboard \/
      State e <> InputEventState.Release -> nothing).
Proof.
  cbv zeta. split.
  - intros [K R].
    pose proof (ProcessInGameConsole_on_release e m K R) as E.
    repeat apply conj;
      try (intros B; try destruct B as [B | B]; rewrite B in E; cbn in E;
           split; solve [exact E | apply emitted_call; exact E]).
    intros. rewrite ProcessInGameConsole_switch_other in E by assumption.
    split; [exact E | apply emitted_nothing; exact E].
  - intros H. pose proof (ProcessInGameConsole_ignores e m H) as E.
    split; [exact E | apply emitted_nothing; exact E].
Qed.

(** C6. While chat is open, [ProcessChat] forwards a chat action only for
    a keyboard Release: ESCAPE gives Close, RETURN and KP_ENTER give Send,
    each as the single call [chat_input]; any other key, any state other
    than Release and any device other than the keyboard leave the machine
    as it was, so no chat input is produced. *)
Theorem ProcessChat_key_map (e : InputEvent) (m : Machine) :
  let forwards input :=
    exec (ProcessChat e) m = exec (call (Call_chat_input input)) m
    /\ emitted (ProcessChat e) m = [Call_chat_input input] in
  let nothing :=
    exec (ProcessChat e) m = m /\ emitted (ProcessChat e) m = [] in
  (DeviceKind e = InputDeviceKind.Keyboard /\
   State e = InputEventState.Release ->
     (Button e = SDLK_ESCAPE -> forwards ChatInput.Close)
     /\ (Button e = SDLK_RETURN \/ Button e = SDLK_KP_ENTER ->
           forwards ChatInput.Send)
     /\ (Button e <> SDLK_ESCAPE -> Button e <> SDLK_RETURN ->
         Button e <> SDLK_KP_ENTER -> nothing))
  /\ (DeviceKind e <> InputDeviceKind.Keyboard \/
      State e <> InputEventState.Release -> nothing).
Proof.
  cbv zeta. split.
  - intros [K R].
    pose proof (ProcessChat_on_release e m K R) as E.
    repeat apply conj;
      try (intros B; try destruct B as [B | B]; rewrite B in E; cbn in E;
           split; solve [exact E | apply emitted_call; exact E]).
    intros. rewrite ProcessChat_switch_other in E by assumption.
    split; [exact E | apply emitted_nothing; exact E].
  - intros H. pose proof (ProcessChat_ignores e m H) as E.
    split; [exact E | apply emitted_nothing; exact E].
Qed.

(* ------------------------------------------------------------------- *)
(** ** Dispatching leaves the input manager alone *)

Ltac branches :=
  repeat (match goal with
          | |- context [if ?b then _ else _] => destruct b
          end;
          cbn [fst snd self world calls]).

Lemma Process_InputEvent_with_self
    (e : InputEvent) (s : InputManager) (m : Machine) :
  exec (Process_InputEvent e) (with_self s m) =
  with_self s (exec (Process_InputEvent e) m).
Proof.
  unfold Process_InputEvent, ProcessEventForSpecificShortcut,
    ProcessInGameConsole, ProcessChat, with_self.
  run. branches; reflexivity.
Qed.

Lemma Process_InputEvent_self (e : InputEvent) (m : Machine) :
  self (exec (Process_InputEvent e) m) = self m.
Proof.
  rewrite <- (with_self_self m) at 1.
  rewrite Process_InputEvent_with_self. reflexivity.
Qed.

Lemma dispatch_all_cons (e : InputEvent) (es : list InputEvent) (m : Machine) :
  dispatch_all (e :: es) m = dispatch_all es (exec (Process_InputEvent e) m).
Proof. reflexivity. Qed.

Lemma dispatch_all_with_self
    (es : list InputEvent) (s : InputManager) (m : Machine) :
  dispatch_all es (with_self s m) = with_self s (dispatch_all es m).
Proof.
  revert m. induction es as [|e es IH]; intros m; [reflexivity|].
  rewrite !dispatch_all_cons, Process_InputEvent_with_self. apply IH.
Qed.

Lemma dispatch_all_self (es : list InputEvent) (m : Machine) :
  self (dispatch_all es m) = self m.
Proof.
  revert m. induction es as [|e es IH]; intros m; [reflexivity|].
  rewrite dispatch_all_cons, IH. apply Process_InputEvent_self.
Qed.

Lemma dispatch_all_app (es1 es2 : list InputEvent) (m : Machine) :
  dispatch_all (es1 ++ es2) m = dispatch_all es2 (dispatch_all es1 m).
Proof. apply fold_left_app. Qed.

(** Events that are not from the keyboard, as all those that
    [QueueInputEvent(const SDL_Event&)] queues, show in the log as one
    [ProcessEvent] each, in the order of the list. *)
Lemma dispatch_all_log (es : list InputEvent) (m : Machine) :
  Forall (fun e => DeviceKind e <> InputDeviceKind.Keyboard) es ->
  calls (dispatch_all es m) = calls m ++ map Call_ProcessEvent es.
Proof.
  intros H. revert m. induction H as [|e es K _ IH]; intros m.
  - cbn. symmetry. apply app_nil_r.
  - rewrite dispatch_all_cons, IH. unfold Process_InputEvent.
    rewrite (not_Keyboard_eqb _ K). cbn. rewrite <- app_assoc. reflexivity.
Qed.

(** One iteration of the loop of [ProcessEvents]: the front event is
    dispatched, then popped. *)
Lemma ProcessEvents_iteration (e : InputEvent) (m : Machine) :
  exec (Process_InputEvent e ;; update_self pop_event) m =
  with_self (pop_event (self m)) (exec (Process_InputEvent e) m).
Proof.
  rewrite exec_seq. unfold update_self, with_self, exec at 1. cbn.
  rewrite Process_InputEvent_self. reflexivity.
Qed.

(** With fuel for one more test than there are events, the loop ends, the
    queued events have been dispatched front to back, and the queue is
    empty. *)
Lemma ProcessEvents_dispatches (fuel : nat) (m : Machine) :
  (List.length (_events (self m)) < fuel)%nat ->
  ProcessEvents fuel m =
  Some (with_self (clear_events (self m))
          (dispatch_all (_events (self m)) m)).
Proof.
  remember (_events (self m)) as es eqn:Q.
  revert fuel m Q. induction es as [|e es IH]; intros fuel m Q L.
  - destruct fuel as [|fuel]; [cbn in L; lia|].
    cbn. rewrite <- Q. cbn. f_equal.
    destruct m as [[t j q v] w c]. cbn in *. subst q. reflexivity.
  - destruct fuel as [|fuel]; [cbn in L; lia|].
    cbn [ProcessEvents]. rewrite <- Q. rewrite ProcessEvents_iteration.
    rewrite (IH fuel); cbn [with_self self pop_event _events].
    + rewrite dispatch_all_with_self. reflexivity.
    + rewrite <- Q. reflexivity.
    + cbn in L. lia.
Qed.

Lemma queue_all_appends (es : list InputEvent) (m : Machine) :
  exec (queue_all es) m =
  with_self {| _lastJoystickCheck := _lastJoystickCheck (self m);
               _joysticks := _joysticks (self m);
               _events := _events (self m) ++ es;
               _viewScroll := _viewScroll (self m) |} m.
Proof.
  revert m. induction es as [|e es IH]; intros m.
  - cbn. rewrite app_nil_r. destruct m as [[t j q v] w c]. reflexivity.
  - change (queue_all (e :: es)) with (QueueInputEvent e ;; queue_all es).
    rewrite exec_seq, IH. unfold with_self. cbn.
    rewrite <- app_assoc. reflexivity.
Qed.

(** C2. Events queued by [QueueInputEvent] into an empty queue are, by one
    call of [ProcessEvents], each dispatched exactly once and in the order
    they were queued: with fuel for the loop's tests the call returns, the
    machine it leaves is the one that dispatching the events first to last
    leaves, and its queue is empty. *)
Theorem ProcessEvents_drains_fifo
    (es : list InputEvent) (m : Machine) (fuel : nat) :
  _events (self m) = [] ->
  (List.length es < fuel)%nat ->
  _events (self (exec (queue_all es) m)) = es
  /\ ProcessEvents fuel (exec (queue_all es) m) = Some (dispatch_all es m)
  /\ _events (self (dispatch_all es m)) = [].
Proof.
  intros Q L. rewrite queue_all_appends. rewrite Q. cbn [app].
  split; [reflexivity|]. split.
  - rewrite ProcessEvents_dispatches by (cbn; exact L).
    cbn [with_self self _events clear_events].
    rewrite dispatch_all_with_self. unfold with_self. cbn.
    pose proof (dispatch_all_self es m) as S.
    destruct (dispatch_all es m) as [s' w' c'].
    destruct m as [[t j q v] w c]. cbn in *. subst. reflexivity.
  - rewrite dispatch_all_self. exact Q.
Qed.

(* ------------------------------------------------------------------- *)
(** ** Where an event goes *)

Lemma ProcessInGameConsole_cases (e : InputEvent) (m : Machine) :
  exec (ProcessInGameConsole e) m = m \/
  exists input,
    exec (ProcessInGameConsole e) m = exec (call (Call_console_Input input)) m.
Proof.
  unfold ProcessInGameConsole, when.
  repeat match goal with
         | |- context [if ?b then _ else _] => destruct b
         end; eauto.
Qed.

Lemma ProcessChat_cases (e : InputEvent) (m : Machine) :
  exec (ProcessChat e) m = m \/
  exists input,
    exec (ProcessChat e) m = exec (call (Call_chat_input input)) m.
Proof.
  unfold ProcessChat, when.
  repeat match goal with
         | |- context [if ?b then _ else _] => destruct b
         end; eauto.
Qed.

Lemma Process_InputEvent_console (e : InputEvent) (m : Machine) :
  DeviceKind e = InputDeviceKind.Keyboard ->
  console_IsOpen (world m) = true ->
  exec (Process_InputEvent e) m =
    if shortcut_consumes e SHORTCUT_ID_DEBUG_CONSOLE (world m)
    then exec (call (Call_ProcessEventForSpecificShortcut e
                       SHORTCUT_ID_DEBUG_CONSOLE)) m
    else exec (ProcessInGameConsole e)
           (exec (call (Call_ProcessEventForSpecificShortcut e
                          SHORTCUT_ID_DEBUG_CONSOLE)) m).
Proof.
  intros K O. unfold Process_InputEvent, ProcessEventForSpecificShortcut.
  rewrite K. cbn [InputDeviceKind.eqb]. run. rewrite O. run.
  destruct (shortcut_consumes e SHORTCUT_ID_DEBUG_CONSOLE (world m));
    reflexivity.
Qed.

Lemma Process_InputEvent_chat (e : InputEvent) (m : Machine) :
  DeviceKind e = InputDeviceKind.Keyboard ->
  console_IsOpen (world m) = false ->
  gChatOpen (world m) = true ->
  exec (Process_InputEvent e) m = exec (ProcessChat e) m.
Proof.
  intros K O C. unfold Process_InputEvent. rewrite K.
  cbn [InputDeviceKind.eqb]. run. rewrite O, C. reflexivity.
Qed.

Lemma Process_InputEvent_text_window
    (e : InputEvent) (m : Machine) (w : rct_window) :
  DeviceKind e = InputDeviceKind.Keyboard ->
  console_IsOpen (world m) = false ->
  gChatOpen (world m) = false ->
  window_find_by_class (world m) WC_TEXTINPUT = Some w ->
  exec (Process_InputEvent e) m =
    if InputEventState.eqb (State e) InputEventState.Release
    then exec (call (Call_window_text_input_key (Some w) (Button e))) m
    else m.
Proof.
  intros K O C W. unfold Process_InputEvent. rewrite K.
  cbn [InputDeviceKind.eqb]. run. rewrite O, C, W. cbn.
  destruct (InputEventState.eqb _ _); reflexivity.
Qed.

Lemma Process_InputEvent_text_box (e : InputEvent) (m : Machine) :
  DeviceKind e = InputDeviceKind.Keyboard ->
  console_IsOpen (world m) = false ->
  gChatOpen (world m) = false ->
  window_find_by_class (world m) WC_TEXTINPUT = None ->
  gUsingWidgetTextBox (world m) = true ->
  exec (Process_InputEvent e) m = m.
Proof.
  intros K O C W U. unfold Process_InputEvent. rewrite K.
  cbn [InputDeviceKind.eqb]. run. rewrite O, C, W. cbn [is_not_null].
  run. rewrite U. reflexivity.
Qed.

Lemma Process_InputEvent_shortcuts (e : InputEvent) (m : Machine) :
  DeviceKind e <> InputDeviceKind.Keyboard \/
  (console_IsOpen (world m) = false /\ gChatOpen (world m) = false /\
   window_find_by_class (world m) WC_TEXTINPUT = None /\
   gUsingWidgetTextBox (world m) = false) ->
  exec (Process_InputEvent e) m = exec (call (Call_ProcessEvent e)) m.
Proof.
  unfold Process_InputEvent. intros [K | (O & C & W & U)].
  - rewrite (not_Keyboard_eqb _ K). reflexivity.
  - destruct (InputDeviceKind.eqb _ _); [|reflexivity].
    run. rewrite O, C, W. cbn [is_not_null]. run. rewrite U. reflexivity.
Qed.

(** The calls an event adds to the log when the console takes it. *)
Lemma Process_InputEvent_console_emitted (e : InputEvent) (m : Machine) :
  DeviceKind e = InputDeviceKind.Keyboard ->
  console_IsOpen (world m) = true ->
  emitted (Process_InputEvent e) m =
    Call_ProcessEventForSpecificShortcut e SHORTCUT_ID_DEBUG_CONSOLE
    :: (if shortcut_consumes e SHORTCUT_ID_DEBUG_CONSOLE (world m)
        then []
        else emitted (ProcessInGameConsole e)
               (exec (call (Call_ProcessEventForSpecificShortcut e
                              SHORTCUT_ID_DEBUG_CONSOLE)) m)).
Proof.
  intros K O. pose proof (Process_InputEvent_console e m K O) as E.
  set (k := Call_ProcessEventForSpecificShortcut e
              SHORTCUT_ID_DEBUG_CONSOLE) in *.
  destruct (shortcut_consumes e SHORTCUT_ID_DEBUG_CONSOLE (world m)).
  - apply emitted_call. exact E.
  - destruct (ProcessInGameConsole_cases e (exec (call k) m))
      as [N | [input N]].
    + rewrite (emitted_nothing _ _ N). rewrite N in E.
      apply emitted_call. exact E.
    + rewrite (emitted_call _ _ _ N). rewrite N in E.
      apply emitted_intro. rewrite E. cbn. rewrite <- app_assoc.
      reflexivity.
Qed.

(** C8. With console and chat closed, a keyboard event never reaches the
    shortcut manager's [ProcessEvent] while a WC_TEXTINPUT window exists or
    the widget text box is in use; and when the window exists, a Release
    is forwarded to [window_text_input_key] with that window and the
    event's button, as the only call, while an event in any other state
    leaves the machine as it was. *)
Theorem text_input_captures_keyboard (e : InputEvent) (m : Machine) :
  DeviceKind e = InputDeviceKind.Keyboard ->
  console_IsOpen (world m) = false ->
  gChatOpen (world m) = false ->
  window_find_by_class (world m) WC_TEXTINPUT <> None \/
  gUsingWidgetTextBox (world m) = true ->
  (forall e', ~ In (Call_ProcessEvent e') (emitted (Process_InputEvent e) m))
  /\ (forall w, window_find_by_class (world m) WC_TEXTINPUT = Some w ->
        (State e = InputEventState.Release ->
           exec (Process_InputEvent e) m =
             exec (call (Call_window_text_input_key (Some w) (Button e))) m
           /\ emitted (Process_InputEvent e) m =
               [Call_window_text_input_key (Some w) (Button e)])
        /\ (State e <> InputEventState.Release ->
              exec (Process_InputEvent e) m = m
              /\ emitted (Process_InputEvent e) m = [])).
Proof.
  intros K O C T. split.
  - intros e'.
    destruct (window_find_by_class (world m) WC_TEXTINPUT) as [w|] eqn:W.
    + pose proof (Process_InputEvent_text_window e m w K O C W) as E.
      destruct (InputEventState.eqb _ _).
      * rewrite (emitted_call _ _ _ E). cbn. intros [H | []]. discriminate.
      * rewrite (emitted_nothing _ _ E). intros [].
    + destruct T as [T | U]; [congruence|].
      rewrite (emitted_nothing _ _
                 (Process_InputEvent_text_box e m K O C W U)).
      intros [].
  - intros w W.
    pose proof (Process_InputEvent_text_window e m w K O C W) as E.
    split.
    + intros R. rewrite R in E. cbn in E.
      split; [exact E | apply emitted_call; exact E].
    + intros R. rewrite (not_Release_eqb _ R) in E.
      split; [exact E | apply emitted_nothing; exact E].
Qed.

(** The window that [Process] hands to [window_text_input_key] is the one
    [window_find_by_class] found, never a null pointer. *)
Lemma Process_InputEvent_text_input_key_not_null
    (e : InputEvent) (m : Machine) (w : option rct_window) (k : Z) :
  In (Call_window_text_input_key w k) (emitted (Process_InputEvent e) m) ->
  w <> None.
Proof.
  destruct (InputDeviceKind.eqb (DeviceKind e) InputDeviceKind.Keyboard)
    eqn:K.
  - apply InputDeviceKind_eqb_eq in K.
    destruct (console_IsOpen (world m)) eqn:O.
    { rewrite (Process_InputEvent_console_emitted e m K O).
      destruct (shortcut_consumes _ _ _).
      - cbn. intros [H | []]. discriminate.
      - destruct (ProcessInGameConsole_cases e
                    (exec (call (Call_ProcessEventForSpecificShortcut e
                                   SHORTCUT_ID_DEBUG_CONSOLE)) m))
          as [N | [input N]].
        + rewrite (emitted_nothing _ _ N). cbn. intros [H | []]. discriminate.
        + rewrite (emitted_call _ _ _ N). cbn.
          intros [H | [H | []]]; discriminate. }
    destruct (gChatOpen (world m)) eqn:C.
    { unfold emitted. rewrite (Process_InputEvent_chat e m K O C).
      fold (emitted (ProcessChat e) m).
      destruct (ProcessChat_cases e m) as [N | [input N]].
      - rewrite (emitted_nothing _ _ N). intros [].
      - rewrite (emitted_call _ _ _ N). cbn. intros [H | []]. discriminate. }
    destruct (window_find_by_class (world m) WC_TEXTINPUT) as [found|] eqn:W.
    + pose proof (Process_InputEvent_text_window e m found K O C W) as E.
      destruct (InputEventState.eqb _ _).
      * rewrite (emitted_call _ _ _ E). cbn. intros [H | []].
        injection H as <- _. discriminate.
      * rewrite (emitted_nothing _ _ E). intros [].
    + destruct (gUsingWidgetTextBox (world m)) eqn:U.
      * rewrite (emitted_nothing _ _
                   (Process_InputEvent_text_box e m K O C W U)).
        intros [].
      * rewrite (emitted_call _ _ _
                   (Process_InputEvent_shortcuts e m
                      (or_intror (conj O (conj C (conj W U)))))).
        cbn. intros [H | []]. discriminate.
  - assert (K' : DeviceKind e <> InputDeviceKind.Keyboard).
    { intros H. apply InputDeviceKind_eqb_eq in H. congruence. }
    rewrite (emitted_call _ _ _
               (Process_InputEvent_shortcuts e m (or_introl K'))).
    cbn. intros [H | []]. discriminate.
Qed.

(* ------------------------------------------------------------------- *)
(** ** Queueing SDL events *)

Lemma QueueInputEvent_pushes (ie : InputEvent) (m : Machine) :
  exec (QueueInputEvent ie) m = with_self (push_event ie (self m)) m.
Proof. reflexivity. Qed.

(** C4. [QueueInputEvent(const SDL_Event&)] pushes exactly one event for
    SDL_JOYBUTTONDOWN (JoyButton, Down), for SDL_JOYBUTTONUP (JoyButton,
    Release) and for an SDL_JOYHATMOTION whose hat value is not
    SDL_HAT_CENTERED (JoyHat, Down), with the current modifier state and
    the button or hat value of the SDL event, and changes nothing else; a
    centred hat motion and every other event type leave the machine, and
    so the queue, as it was. *)
Theorem QueueInputEvent_SDL_enqueues (e : SDL_Event) (m : Machine) :
  let m' := exec (QueueInputEvent_SDL e) m in
  let pushed kind button state :=
    let ie := {| DeviceKind := kind;
                 Modifiers := SDL_GetModState (world m);
                 Button := button;
                 State := state |} in
    m' = with_self (push_event ie (self m)) m
    /\ _events (self m') = _events (self m) ++ [ie] in
  (type e = SDL_JOYBUTTONDOWN ->
     pushed InputDeviceKind.JoyButton (jbutton_button e) InputEventState.Down)
  /\ (type e = SDL_JOYBUTTONUP ->
      pushed InputDeviceKind.JoyButton (jbutton_button e)
        InputEventState.Release)
  /\ (type e = SDL_JOYHATMOTION -> jhat_value e <> SDL_HAT_CENTERED ->
      pushed InputDeviceKind.JoyHat (jhat_value e) InputEventState.Down)
  /\ (type e = SDL_JOYHATMOTION -> jhat_value e = SDL_HAT_CENTERED -> m' = m)
  /\ (type e <> SDL_JOYHATMOTION -> type e <> SDL_JOYBUTTONDOWN ->
      type e <> SDL_JOYBUTTONUP -> m' = m).
Proof.
  cbv zeta. unfold QueueInputEvent_SDL. repeat apply conj.
  - intros ->. cbn. split; reflexivity.
  - intros ->. cbn. split; reflexivity.
  - intros -> V. apply Z.eqb_neq in V. cbn. rewrite V. cbn.
    split; reflexivity.
  - intros -> ->. reflexivity.
  - intros H D U. apply Z.eqb_neq in H, D, U. rewrite H, D, U. reflexivity.
Qed.

(* ------------------------------------------------------------------- *)
(** ** View scrolling *)

Lemma test_bits_0_l (b : Z) : test_bits 0 b = false.
Proof. unfold test_bits. rewrite Z.land_0_l. reflexivity. Qed.

(** Outside the title demo and with the console closed, a vertical scroll
    makes [HandleViewScrolling] call [window_unfollow_sprite] with whatever
    [window_get_main] returned, a null pointer included. *)
Lemma HandleViewScrolling_unfollows_on_vertical_scroll (m : Machine) :
  test_bits (gScreenFlags (world m)) SCREEN_FLAGS_TITLE_DEMO = false ->
  console_IsOpen (world m) = false ->
  y (_viewScroll (self m)) <> 0 ->
  exists rest,
    emitted HandleViewScrolling m =
    Call_window_unfollow_sprite (window_get_main (world m)) :: rest.
Proof.
  intros T O V. apply Z.eqb_neq in V.
  unfold emitted, HandleViewScrolling. run. rewrite T. run. rewrite O. run.
  rewrite V, orb_true_r. run. branches; run;
    rewrite <- ?app_assoc, skipn_length_app; eexists; reflexivity.
Qed.

(** With a main window the call is safe whatever the scroll is. *)
Lemma HandleViewScrolling_unfollow_with_main_window
    (m : Machine) (w : option rct_window) :
  window_get_main (world m) <> None ->
  In (Call_window_unfollow_sprite w) (emitted HandleViewScrolling m) ->
  w <> None.
Proof.
  intros W. unfold emitted, HandleViewScrolling.
  destruct (test_bits (gScreenFlags (world m)) SCREEN_FLAGS_TITLE_DEMO) eqn:T;
    run; rewrite T; run.
  { rewrite <- (app_nil_r (calls m)) at 2. rewrite skipn_length_app.
    intros []. }
  destruct (console_IsOpen (world m)) eqn:O; run.
  { rewrite <- (app_nil_r (calls m)) at 2. rewrite skipn_length_app.
    intros []. }
  branches; run; rewrite <- ?app_assoc, skipn_length_app; cbn;
    intros H;
    repeat match goal with
           | H : _ \/ _ |- _ => destruct H
           | H : False |- _ => destruct H
           | H : Call_window_unfollow_sprite _ = _ |- _ =>
               injection H as <-; exact W
           | H : _ = Call_window_unfollow_sprite _ |- _ => discriminate H
           end.
Qed.

(* ------------------------------------------------------------------- *)
(** ** The joystick scan *)

Lemma CheckJoysticks_loop_keeps (n : nat) (i : Z) (m : Machine) :
  let m' := exec (CheckJoysticks_loop n i) m in
  _lastJoystickCheck (self m') = _lastJoystickCheck (self m)
  /\ _events (self m') = _events (self m)
  /\ _viewScroll (self m') = _viewScroll (self m).
Proof.
  cbv zeta. unfold exec. revert i m. induction n as [|n IH]; intros i m.
  - cbn. auto.
  - cbn [CheckJoysticks_loop]. unfold do_SDL_JoystickOpen. run.
    destruct (SDL_JoystickOpen (world m) i); run;
      match goal with
      | |- context [CheckJoysticks_loop n (i + 1) ?x] =>
          destruct (IH (i + 1) x) as (A & B & C); rewrite A, B, C
      end; cbn; auto.
Qed.

(** No scan while the tick count does not exceed the 32-bit sum. *)
Lemma CheckJoysticks_waits (m : Machine) :
  SDL_GetTicks (world m)
    <= wrap32 (_lastJoystickCheck (self m) + CHECK_INTERVAL_MS) ->
  exec CheckJoysticks m = m.
Proof.
  intros H. unfold CheckJoysticks. run.
  destruct (Z.gtb_spec (SDL_GetTicks (world m))
              (wrap32 (_lastJoystickCheck (self m) + CHECK_INTERVAL_MS)));
    [lia | reflexivity].
Qed.

(** Where the sum fits 32 bits, the scan waits for the interval to pass. *)
Lemma CheckJoysticks_waits_without_overflow (m : Machine) :
  0 <= _lastJoystickCheck (self m) ->
  _lastJoystickCheck (self m) + CHECK_INTERVAL_MS < 2 ^ 32 ->
  SDL_GetTicks (world m) <= _lastJoystickCheck (self m) + CHECK_INTERVAL_MS ->
  exec CheckJoysticks m = m.
Proof.
  intros L U H. apply CheckJoysticks_waits. unfold wrap32.
  rewrite Z.mod_small; [exact H|]. unfold CHECK_INTERVAL_MS in *. lia.
Qed.

(** Past the 32-bit sum the scan runs: the tick is recorded and the list
    is rebuilt from empty by the loop over the attached joysticks. *)
Lemma CheckJoysticks_rescans (m : Machine) :
  SDL_GetTicks (world m)
    > wrap32 (_lastJoystickCheck (self m) + CHECK_INTERVAL_MS) ->
  exec CheckJoysticks m =
    exec (CheckJoysticks_loop (Z.to_nat (SDL_NumJoysticks (world m))) 0)
      (with_self
         (clear_joysticks
            (set_lastJoystickCheck (SDL_GetTicks (world m)) (self m))) m)
  /\ _lastJoystickCheck (self (exec CheckJoysticks m))
     = SDL_GetTicks (world m).
Proof.
  intros H.
  assert (E : exec CheckJoysticks m =
              exec (CheckJoysticks_loop
                      (Z.to_nat (SDL_NumJoysticks (world m))) 0)
                (with_self
                   (clear_joysticks
                      (set_lastJoystickCheck (SDL_GetTicks (world m))
                         (self m))) m)).
  { unfold CheckJoysticks. run.
    destruct (Z.gtb_spec (SDL_GetTicks (world m))
                (wrap32 (_lastJoystickCheck (self m) + CHECK_INTERVAL_MS)));
      [reflexivity | lia]. }
  split; [exact E|]. rewrite E.
  match goal with
  | |- context [exec (CheckJoysticks_loop ?n ?i) ?x] =>
      destruct (CheckJoysticks_loop_keeps n i x) as (A & _); rewrite A
  end.
  reflexivity.
Qed.

(** A tick count beyond the last check time plus the interval always
    starts a scan: the sum cannot have wrapped then. *)
Lemma CheckJoysticks_rescans_after_interval (m : Machine) :
  0 <= _lastJoystickCheck (self m) ->
  SDL_GetTicks (world m) < 2 ^ 32 ->
  SDL_GetTicks (world m) > _lastJoystickCheck (self m) + CHECK_INTERVAL_MS ->
  _lastJoystickCheck (self (exec CheckJoysticks m)) = SDL_GetTicks (world m).
Proof.
  intros L U H. apply CheckJoysticks_rescans. unfold wrap32.
  rewrite Z.mod_small; [exact H|]. unfold CHECK_INTERVAL_MS in *. lia.
Qed.

(** C9, at the input that breaks it. The joysticks were scanned at tick
    4294966296 and the tick is now 4294966796, 500 ms later: the tick does
    not exceed the last check time plus 5000, yet [CheckJoysticks] records
    the new tick and rebuilds the list, because the sum it compares with
    has wrapped around 32 bits to 4000. *)
Theorem CheckJoysticks_rescans_before_interval :
  SDL_GetTicks late_world
    <= _lastJoystickCheck late_manager + CHECK_INTERVAL_MS
  /\ wrap32 (_lastJoystickCheck late_manager + CHECK_INTERVAL_MS) = 4000
  /\ self (exec CheckJoysticks (boot late_manager late_world))
     = {| _lastJoystickCheck := 4294966796;
          _joysticks := [7%nat];
          _events := [];
          _viewScroll := {| x := 0; y := 0 |} |}
  /\ calls (exec CheckJoysticks (boot late_manager late_world))
     = [Call_SDL_JoystickOpen 0].
Proof.
  split; [cbn; unfold CHECK_INTERVAL_MS; lia|].
  split; [reflexivity|].
  split; reflexivity.
Qed.

(* ------------------------------------------------------------------- *)
(** ** One frame *)

Lemma CheckJoysticks_events (m : Machine) :
  _events (self (exec CheckJoysticks m)) = _events (self m).
Proof.
  destruct (Z.gtb_spec (SDL_GetTicks (world m))
              (wrap32 (_lastJoystickCheck (self m) + CHECK_INTERVAL_MS)))
    as [G | G].
  - destruct (CheckJoysticks_rescans m) as [-> _]; [lia|].
    match goal with
    | |- context [exec (CheckJoysticks_loop ?n ?i) ?x] =>
        destruct (CheckJoysticks_loop_keeps n i x) as (_ & B & _); rewrite B
    end.
    reflexivity.
  - rewrite CheckJoysticks_waits by exact G. reflexivity.
Qed.

Lemma HandleModifiers_self (m : Machine) :
  self (exec HandleModifiers m) = self m.
Proof. unfold HandleModifiers, or_gInputPlaceObjectModifier. run.
       branches; reflexivity. Qed.

Lemma HandleViewScrolling_self (m : Machine) :
  self (exec HandleViewScrolling m) = self m.
Proof. unfold HandleViewScrolling. run. branches; reflexivity. Qed.

(** A frame's [Process] runs the loop of [ProcessEvents] once, between the
    joystick scan and modifiers and the view scrolling; with fuel for the
    loop it returns, and the queue is empty then. *)
Lemma Process_empties_queue (fuel : nat) (m : Machine) :
  (List.length (_events (self m)) < fuel)%nat ->
  exists m', Process fuel m = Some m' /\ _events (self m') = [].
Proof.
  intros L. unfold Process.
  set (m1 := exec (CheckJoysticks ;; HandleModifiers) m).
  assert (Q : _events (self m1) = _events (self m)).
  { unfold m1. rewrite exec_seq, HandleModifiers_self.
    apply CheckJoysticks_events. }
  rewrite ProcessEvents_dispatches by (rewrite Q; exact L).
  eexists. split; [reflexivity|].
  rewrite HandleViewScrolling_self. reflexivity.
Qed.

End Theory.

(** C1, at the input that breaks it. In play, with the console closed, no
    main window and a view scroll of (0, 1), [HandleViewScrolling] passes the
    null pointer that [window_get_main] returned to [window_unfollow_sprite],
    as its first call on every platform: the null test of the first [if]
    guards the [x] component only. Where the collaborators leave the world
    alone, that call and the viewport scroll are the whole log. *)
Theorem HandleViewScrolling_unfollows_null_window :
  window_get_main quiet_world = None
  /\ (forall P : Platform,
        exists rest,
          calls (exec (@HandleViewScrolling P)
                   (boot vertical_scroll_manager quiet_world))
          = Call_window_unfollow_sprite None :: rest)
  /\ calls (exec (@HandleViewScrolling still_platform)
              (boot vertical_scroll_manager quiet_world))
     = [ Call_window_unfollow_sprite None;
         Call_InputScrollViewport {| x := 0; y := 1 |} ].
Proof.
  split; [reflexivity|]. split; [|reflexivity].
  intros P.
  apply (@HandleViewScrolling_unfollows_on_vertical_scroll P
           (boot vertical_scroll_manager quiet_world)).
  - apply test_bits_0_l.
  - reflexivity.
  - cbn. lia.
Qed.

(* ===================================================================== *)
(** * The two descriptors compared *)

Lemma testbit_bit (n i : Z) : 0 <= i -> Z.testbit (bit n) i = (i =? n).
Proof.
  intros H. unfold bit. rewrite Z.shiftl_spec by exact H.
  destruct (Z.eqb_spec i n) as [-> | N].
  - rewrite Z.sub_diag. reflexivity.
  - destruct (Z_lt_le_dec (i - n) 0) as [L | L].
    + apply Z.testbit_neg_r. exact L.
    + replace 1 with (2 ^ 0) by reflexivity.
      apply Z.pow2_bits_false. lia.
Qed.

Section DescriptorTheory.

Context {D : RideData}.

(** C10. The alternate descriptor has the same RideModes, DefaultMode,
    OperatingSettings, AvailableBreakdowns, Heights, MaxMass, LiftData,
    RatingsMultipliers, UpkeepCosts, BuildCosts, DefaultPrices,
    DefaultMusic, PhotoItem, BonusValue, ColourPresets, ColourPreview and
    ColourKey as the main one, and differs from it in no field other than
    AlternateType, Category, EnabledTrackPieces, TrackPaintFunction, Flags,
    Naming and EnumName: it is the main descriptor with those seven fields
    replaced. Of those, TrackPaintFunction and EnumName differ whatever the
    values of the headers' constants. *)
Theorem MultiDimensionRollerCoasterAltRTD_agrees :
  let rtd := MultiDimensionRollerCoasterRTD in
  let alt := MultiDimensionRollerCoasterAltRTD in
  (RideModes alt = RideModes rtd
   /\ DefaultMode alt = DefaultMode rtd
   /\ OperatingSettings alt = OperatingSettings rtd
   /\ AvailableBreakdowns alt = AvailableBreakdowns rtd
   /\ Heights alt = Heights rtd
   /\ MaxMass alt = MaxMass rtd
   /\ LiftData alt = LiftData rtd
   /\ RatingsMultipliers alt = RatingsMultipliers rtd
   /\ UpkeepCosts alt = UpkeepCosts rtd
   /\ BuildCosts alt = BuildCosts rtd
   /\ DefaultPrices alt = DefaultPrices rtd
   /\ DefaultMusic alt = DefaultMusic rtd
   /\ PhotoItem alt = PhotoItem rtd
   /\ BonusValue alt = BonusValue rtd
   /\ ColourPresets alt = ColourPresets rtd
   /\ ColourPreview alt = ColourPreview rtd
   /\ ColourKey alt = ColourKey rtd)
  /\ alt =
     {| AlternateType := AlternateType alt;
        Category := Category alt;
        EnabledTrackPieces := EnabledTrackPieces alt;
        ExtraTrackPieces := ExtraTrackPieces rtd;
        CoveredTrackPieces := CoveredTrackPieces rtd;
        StartTrackPiece := StartTrackPiece rtd;
        TrackPaintFunction := TrackPaintFunction alt;
        Flags := Flags alt;
        RideModes := RideModes rtd;
        DefaultMode := DefaultMode rtd;
        OperatingSettings := OperatingSettings rtd;
        Naming := Naming alt;
        NameConvention := NameConvention rtd;
        EnumName := EnumName alt;
        AvailableBreakdowns := AvailableBreakdowns rtd;
        Heights := Heights rtd;
        MaxMass := MaxMass rtd;
        LiftData := LiftData rtd;
        RatingsCalculationFunction := RatingsCalculationFunction rtd;
        RatingsMultipliers := RatingsMultipliers rtd;
        UpkeepCosts := UpkeepCosts rtd;
        BuildCosts := BuildCosts rtd;
        DefaultPrices := DefaultPrices rtd;
        DefaultMusic := DefaultMusic rtd;
        PhotoItem := PhotoItem rtd;
        BonusValue := BonusValue rtd;
        ColourPresets := ColourPresets rtd;
        ColourPreview := ColourPreview rtd;
        ColourKey := ColourKey rtd |}
  /\ TrackPaintFunction alt <> TrackPaintFunction rtd
  /\ EnumName alt <> EnumName rtd.
Proof.
  cbv zeta. split; [repeat split|]. split; [reflexivity|].
  split; cbn; discriminate.
Qed.

(** The track pieces of the alternate descriptor, as bit numbers. *)
Lemma EnabledTrackPieces_alt_testbit (i : Z) :
  0 <= i ->
  Z.testbit (EnabledTrackPieces MultiDimensionRollerCoasterAltRTD) i =
  existsb (Z.eqb i)
    [ TRACK_STRAIGHT; TRACK_FLAT_ROLL_BANKING; TRACK_SLOPE;
      TRACK_SLOPE_STEEP; TRACK_S_BEND; TRACK_CURVE_SMALL; TRACK_CURVE;
      TRACK_BRAKES; TRACK_ON_RIDE_PHOTO; TRACK_SLOPE_VERTICAL;
      TRACK_BLOCK_BRAKES; TRACK_INLINE_TWIST_INVERTED;
      TRACK_QUARTER_LOOP_INVERTED ].
Proof.
  intros H. cbn [EnabledTrackPieces MultiDimensionRollerCoasterAltRTD existsb].
  rewrite !Z.lor_spec, !testbit_bit by exact H.
  rewrite orb_false_r, <- !orb_assoc. reflexivity.
Qed.

(** Where the station end is a track piece of its own, the two sets of
    enabled track pieces differ: only the main descriptor has it. *)
Lemma EnabledTrackPieces_differ :
  0 <= TRACK_STATION_END ->
  ~ In TRACK_STATION_END
      [ TRACK_STRAIGHT; TRACK_FLAT_ROLL_BANKING; TRACK_SLOPE;
        TRACK_SLOPE_STEEP; TRACK_S_BEND; TRACK_CURVE_SMALL; TRACK_CURVE;
        TRACK_BRAKES; TRACK_ON_RIDE_PHOTO; TRACK_SLOPE_VERTICAL;
        TRACK_BLOCK_BRAKES; TRACK_INLINE_TWIST_INVERTED;
        TRACK_QUARTER_LOOP_INVERTED ] ->
  EnabledTrackPieces MultiDimensionRollerCoasterAltRTD
  <> EnabledTrackPieces MultiDimensionRollerCoasterRTD.
Proof.
  intros H N E.
  assert (A : Z.testbit (EnabledTrackPieces MultiDimensionRollerCoasterAltRTD)
                TRACK_STATION_END = false).
  { rewrite EnabledTrackPieces_alt_testbit by exact H.
    apply not_true_is_false. intros X. apply existsb_exists in X.
    destruct X as (p & I & Q). apply Z.eqb_eq in Q. subst p. exact (N I). }
  rewrite E in A.
  cbn [EnabledTrackPieces MultiDimensionRollerCoasterRTD] in A.
  rewrite !Z.lor_spec, !testbit_bit in A by exact H.
  rewrite Z.eqb_refl in A. rewrite ?orb_true_r in A. cbn in A.
  rewrite ?orb_true_r in A. discriminate A.
Qed.

End DescriptorTheory.

(* ===================================================================== *)
(** * The theorems at concrete inputs *)

(** Two key events queued on a fresh manager are dispatched in order. *)
Lemma ProcessEvents_drains_fifo_witness :
  _events (self (boot fresh_manager quiet_world)) = []
  /\ (List.length [key SDLK_ESCAPE InputEventState.Release;
                    key SDLK_RETURN InputEventState.Down] < 3)%nat
  /\ ProcessEvents (P := still_platform) 3
       (exec (queue_all
                [key SDLK_ESCAPE InputEventState.Release;
                 key SDLK_RETURN InputEventState.Down])
          (boot fresh_manager quiet_world))
     = Some (dispatch_all (P := still_platform)
               [key SDLK_ESCAPE InputEventState.Release;
                key SDLK_RETURN InputEventState.Down]
               (boot fresh_manager quiet_world))
  /\ calls (dispatch_all (P := still_platform)
              [key SDLK_ESCAPE InputEventState.Release;
               key SDLK_RETURN InputEventState.Down]
              (boot fresh_manager quiet_world))
     = [Call_ProcessEvent (key SDLK_ESCAPE InputEventState.Release);
        Call_ProcessEvent (key SDLK_RETURN InputEventState.Down)].
Proof.
  split; [reflexivity|]. split; [cbn; lia|]. split; [|reflexivity].
  apply (ProcessEvents_drains_fifo (P := still_platform)
           [key SDLK_ESCAPE InputEventState.Release;
            key SDLK_RETURN InputEventState.Down]
           (boot fresh_manager quiet_world) 3);
    [reflexivity | cbn; lia].
Defined.

(** A pressed joystick button 2 becomes one queued event. *)
Lemma QueueInputEvent_SDL_enqueues_witness :
  _events (self (exec (QueueInputEvent_SDL
                         {| type := SDL_JOYBUTTONDOWN;
                            jhat_value := 0;
                            jbutton_button := 2 |})
                   (boot fresh_manager quiet_world)))
  = [] ++ [{| DeviceKind := InputDeviceKind.JoyButton;
              Modifiers := 0; Button := 2;
              State := InputEventState.Down |}].
Proof.
  apply (QueueInputEvent_SDL_enqueues
           {| type := SDL_JOYBUTTONDOWN; jhat_value := 0; jbutton_button := 2 |}
           (boot fresh_manager quiet_world)).
  reflexivity.
Defined.

(** Releasing UP in the console recalls the previous line. *)
Lemma ProcessInGameConsole_key_map_witness :
  emitted (ProcessInGameConsole (P := still_platform)
             (key SDLK_UP InputEventState.Release))
    (boot fresh_manager quiet_world)
  = [Call_console_Input ConsoleInput.HistoryPrevious].
Proof.
  apply (ProcessInGameConsole_key_map (P := still_platform)
           (key SDLK_UP InputEventState.Release)
           (boot fresh_manager quiet_world));
    [split; reflexivity | reflexivity].
Defined.

(** Releasing the keypad's ENTER in chat sends the line. *)
Lemma ProcessChat_key_map_witness :
  emitted (ProcessChat (P := still_platform)
             (key SDLK_KP_ENTER InputEventState.Release))
    (boot fresh_manager quiet_world)
  = [Call_chat_input ChatInput.Send].
Proof.
  apply (ProcessChat_key_map (P := still_platform)
           (key SDLK_KP_ENTER InputEventState.Release)
           (boot fresh_manager quiet_world));
    [split; reflexivity | right; reflexivity].
Defined.

(** A key released over a text-input window goes to that window only. *)
Lemma text_input_captures_keyboard_witness :
  DeviceKind (key 97 InputEventState.Release) = InputDeviceKind.Keyboard
  /\ console_IsOpen typing_world = false
  /\ gChatOpen typing_world = false
  /\ window_find_by_class typing_world (WC_TEXTINPUT (Platform := still_platform))
     <> None
  /\ emitted (Process_InputEvent (P := still_platform)
                (key 97 InputEventState.Release))
       (boot fresh_manager typing_world)
     = [Call_window_text_input_key (Some 5%nat) 97].
Proof.
  repeat (split; [first [reflexivity | discriminate]|]).
  apply (text_input_captures_keyboard (P := still_platform)
           (key 97 InputEventState.Release)
           (boot fresh_manager typing_world));
    first [reflexivity | left; discriminate].
Defined.


(* ===================================================================== *)
(** * Further properties of the input manager *)

Ltac split_ifs :=
  repeat (match goal with
          | |- context [if ?b then _ else _] => destruct b
          end;
          cbn [fst snd self world calls]).

Section Consumers.

Context {P : Platform}.

(** What [ProcessInGameConsole] adds to the log. *)
Lemma ProcessInGameConsole_emitted (e : InputEvent) (m : Machine) :
  emitted (ProcessInGameConsole e) m =
    if InputDeviceKind.eqb (DeviceKind e) InputDeviceKind.Keyboard
       && InputEventState.eqb (State e) InputEventState.Release
    then match ProcessInGameConsole_switch (Button e) with
         | ConsoleInput.None => []
         | input => [Call_console_Input input]
         end
    else [].
Proof.
  destruct (InputDeviceKind.eqb _ _) eqn:K;
    [destruct (InputEventState.eqb _ _) eqn:R|]; cbn [andb].
  - apply InputDeviceKind_eqb_eq in K. apply InputEventState_eqb_eq in R.
    pose proof (ProcessInGameConsole_on_release e m K R) as E.
    destruct (ProcessInGameConsole_switch (Button e));
      first [apply emitted_nothing; exact E | apply emitted_call; exact E].
  - apply emitted_nothing, ProcessInGameConsole_ignores. right.
    intros H. apply InputEventState_eqb_eq in H. congruence.
  - apply emitted_nothing, ProcessInGameConsole_ignores. left.
    intros H. apply InputDeviceKind_eqb_eq in H. congruence.
Qed.

(** What [ProcessChat] adds to the log. *)
Lemma ProcessChat_emitted (e : InputEvent) (m : Machine) :
  emitted (ProcessChat e) m =
    if InputDeviceKind.eqb (DeviceKind e) InputDeviceKind.Keyboard
       && InputEventState.eqb (State e) InputEventState.Release
    then match ProcessChat_switch (Button e) with
         | ChatInput.None => []
         | input => [Call_chat_input input]
         end
    else [].
Proof.
  destruct (InputDeviceKind.eqb _ _) eqn:K;
    [destruct (InputEventState.eqb _ _) eqn:R|]; cbn [andb].
  - apply InputDeviceKind_eqb_eq in K. apply InputEventState_eqb_eq in R.
    pose proof (ProcessChat_on_release e m K R) as E.
    destruct (ProcessChat_switch (Button e));
      first [apply emitted_nothing; exact E | apply emitted_call; exact E].
  - apply emitted_nothing, ProcessChat_ignores. right.
    intros H. apply InputEventState_eqb_eq in H. congruence.
  - apply emitted_nothing, ProcessChat_ignores. left.
    intros H. apply InputDeviceKind_eqb_eq in H. congruence.
Qed.

(** The label of the [switch] that a console action came from. *)
Lemma ProcessInGameConsole_switch_key (button : Z) :
  ProcessInGameConsole_switch button <> ConsoleInput.None ->
  console_key (ProcessInGameConsole_switch button) button.
Proof.
  unfold ProcessInGameConsole_switch.
  repeat match goal with
         | |- context [?a =? ?b] => destruct (Z.eqb_spec a b)
         end; cbn; auto; congruence.
Qed.

Lemma ProcessChat_switch_key (button : Z) :
  ProcessChat_switch button <> ChatInput.None ->
  chat_key (ProcessChat_switch button) button.
Proof.
  unfold ProcessChat_switch.
  repeat match goal with
         | |- context [?a =? ?b] => destruct (Z.eqb_spec a b)
         end; cbn; auto; congruence.
Qed.

(** The calls one event adds to the log, branch by branch. *)
Inductive Route (e : InputEvent) (m : Machine) : list Call -> Prop :=
| Route_console_consumed :
    DeviceKind e = InputDeviceKind.Keyboard ->
    console_IsOpen (world m) = true ->
    shortcut_consumes e SHORTCUT_ID_DEBUG_CONSOLE (world m) = true ->
    Route e m [Call_ProcessEventForSpecificShortcut e SHORTCUT_ID_DEBUG_CONSOLE]
| Route_console_declined :
    DeviceKind e = InputDeviceKind.Keyboard ->
    console_IsOpen (world m) = true ->
    shortcut_consumes e SHORTCUT_ID_DEBUG_CONSOLE (world m) = false ->
    Route e m
      (Call_ProcessEventForSpecificShortcut e SHORTCUT_ID_DEBUG_CONSOLE
       :: emitted (ProcessInGameConsole e)
            (exec (call (Call_ProcessEventForSpecificShortcut e
                           SHORTCUT_ID_DEBUG_CONSOLE)) m))
| Route_chat :
    DeviceKind e = InputDeviceKind.Keyboard ->
    console_IsOpen (world m) = false ->
    gChatOpen (world m) = true ->
    Route e m (emitted (ProcessChat e) m)
| Route_text_window w :
    DeviceKind e = InputDeviceKind.Keyboard ->
    console_IsOpen (world m) = false ->
    gChatOpen (world m) = false ->
    window_find_by_class (world m) WC_TEXTINPUT = Some w ->
    Route e m
      (if InputEventState.eqb (State e) InputEventState.Release
       then [Call_window_text_input_key (Some w) (Button e)]
       else [])
| Route_text_box :
    DeviceKind e = InputDeviceKind.Keyboard ->
    console_IsOpen (world m) = false ->
    gChatOpen (world m) = false ->
    window_find_by_class (world m) WC_TEXTINPUT = None ->
    gUsingWidgetTextBox (world m) = true ->
    Route e m []
| Route_shortcuts :
    DeviceKind e <> InputDeviceKind.Keyboard \/
    (console_IsOpen (world m) = false /\ gChatOpen (world m) = false /\
     window_find_by_class (world m) WC_TEXTINPUT = None /\
     gUsingWidgetTextBox (world m) = false) ->
    Route e m [Call_ProcessEvent e].

Lemma Process_InputEvent_route (e : InputEvent) (m : Machine) :
  Route e m (emitted (Process_InputEvent e) m).
Proof.
  destruct (InputDeviceKind.eqb (DeviceKind e) InputDeviceKind.Keyboard) eqn:K.
  - apply InputDeviceKind_eqb_eq in K.
    destruct (console_IsOpen (world m)) eqn:O.
    { rewrite (Process_InputEvent_console_emitted e m K O).
      destruct (shortcut_consumes _ _ _) eqn:S;
        [apply Route_console_consumed | apply Route_console_declined];
        assumption. }
    destruct (gChatOpen (world m)) eqn:C.
    { replace (emitted (Process_InputEvent e) m)
        with (emitted (ProcessChat e) m)
        by (unfold emitted; now rewrite (Process_InputEvent_chat e m K O C)).
      apply Route_chat; assumption. }
    destruct (window_find_by_class (world m) WC_TEXTINPUT) as [w|] eqn:W.
    { pose proof (Process_InputEvent_text_window e m w K O C W) as E.
      pose proof (Route_text_window e m w K O C W) as R.
      destruct (InputEventState.eqb _ _).
      - rewrite (emitted_call _ _ _ E). exact R.
      - rewrite (emitted_nothing _ _ E). exact R. }
    destruct (gUsingWidgetTextBox (world m)) eqn:U.
    + rewrite (emitted_nothing _ _ (Process_InputEvent_text_box e m K O C W U)).
      apply Route_text_box; assumption.
    + rewrite (emitted_call _ _ _
                 (Process_InputEvent_shortcuts e m
                    (or_intror (conj O (conj C (conj W U)))))).
      apply Route_shortcuts. auto.
  - assert (K' : DeviceKind e <> InputDeviceKind.Keyboard).
    { intros H. apply InputDeviceKind_eqb_eq in H. congruence. }
    rewrite (emitted_call _ _ _
               (Process_InputEvent_shortcuts e m (or_introl K'))).
    apply Route_shortcuts. auto.
Qed.

(** C3, as amended. [Process(const InputEvent&)] routes every event by the
    first of these cases that applies, and to at most one consumer. A
    keyboard event while the console is open is offered to the shortcut
    manager for the debug-console shortcut and, if that declines it, handed
    to [ProcessInGameConsole], whether or not chat is open. A keyboard event
    while the console is closed and chat is open is handed to [ProcessChat].
    A keyboard event while both are closed and a WC_TEXTINPUT window exists
    belongs to that window: a Release is forwarded to
    [window_text_input_key], any other state is dropped. A keyboard event
    while both are closed, no such window exists and the widget text box is
    in use is dropped. Any other event, that is every event that is not from
    the keyboard and a keyboard event in none of the cases above, is handed
    to the shortcut manager's [ProcessEvent], once. In each case the machine
    left and the calls added to the log are those of that case alone, and
    all the calls of one event go to one consumer. *)
Theorem Process_InputEvent_routes (e : InputEvent) (m : Machine) :
  let keyboard := DeviceKind e = InputDeviceKind.Keyboard in
  let offer :=
    Call_ProcessEventForSpecificShortcut e SHORTCUT_ID_DEBUG_CONSOLE in
  let offered := exec (call offer) m in
  let text_key w := Call_window_text_input_key (Some w) (Button e) in
  (keyboard -> console_IsOpen (world m) = true ->
     exec (Process_InputEvent e) m =
       (if shortcut_consumes e SHORTCUT_ID_DEBUG_CONSOLE (world m)
        then offered
        else exec (ProcessInGameConsole e) offered)
     /\ emitted (Process_InputEvent e) m =
         offer :: (if shortcut_consumes e SHORTCUT_ID_DEBUG_CONSOLE (world m)
                   then []
                   else emitted (ProcessInGameConsole e) offered))
  /\ (keyboard -> console_IsOpen (world m) = false ->
      gChatOpen (world m) = true ->
      exec (Process_InputEvent e) m = exec (ProcessChat e) m
      /\ emitted (Process_InputEvent e) m = emitted (ProcessChat e) m)
  /\ (forall w,
        keyboard -> console_IsOpen (world m) = false ->
        gChatOpen (world m) = false ->
        window_find_by_class (world m) WC_TEXTINPUT = Some w ->
        (State e = InputEventState.Release ->
           exec (Process_InputEvent e) m = exec (call (text_key w)) m
           /\ emitted (Process_InputEvent e) m = [text_key w])
        /\ (State e <> InputEventState.Release ->
            exec (Process_InputEvent e) m = m
            /\ emitted (Process_InputEvent e) m = []))
  /\ (keyboard -> console_IsOpen (world m) = false ->
      gChatOpen (world m) = false ->
      window_find_by_class (world m) WC_TEXTINPUT = None ->
      gUsingWidgetTextBox (world m) = true ->
      exec (Process_InputEvent e) m = m
      /\ emitted (Process_InputEvent e) m = [])
  /\ (~ keyboard \/
      (console_IsOpen (world m) = false /\ gChatOpen (world m) = false /\
       window_find_by_class (world m) WC_TEXTINPUT = None /\
       gUsingWidgetTextBox (world m) = false) ->
      exec (Process_InputEvent e) m = exec (call (Call_ProcessEvent e)) m
      /\ emitted (Process_InputEvent e) m = [Call_ProcessEvent e])
  /\ (exists consumer,
        forall c, In c (emitted (Process_InputEvent e) m) ->
                  consumer_of c = Some consumer).
Proof.
  cbv zeta. repeat apply conj.
  - intros K O. split.
    + apply Process_InputEvent_console; assumption.
    + apply Process_InputEvent_console_emitted; assumption.
  - intros K O C. pose proof (Process_InputEvent_chat e m K O C) as E.
    split; [exact E|]. unfold emitted. rewrite E. reflexivity.
  - intros w K O C W.
    pose proof (Process_InputEvent_text_window e m w K O C W) as E. split.
    + intros R. rewrite R in E. cbn in E.
      split; [exact E | apply emitted_call; exact E].
    + intros R. rewrite (not_Release_eqb _ R) in E.
      split; [exact E | apply emitted_nothing; exact E].
  - intros K O C W U.
    pose proof (Process_InputEvent_text_box e m K O C W U) as E.
    split; [exact E | apply emitted_nothing; exact E].
  - intros H. pose proof (Process_InputEvent_shortcuts e m H) as E.
    split; [exact E | apply emitted_call; exact E].
  - destruct (Process_InputEvent_route e m) as
      [K O S | K O S | K O C | found K O C W | K O C W U | G].
    + exists Consumer_console. intros c [<- | []]. reflexivity.
    + exists Consumer_console. intros c [<- | H]; [reflexivity|].
      rewrite ProcessInGameConsole_emitted in H.
      destruct (_ && _); [|destruct H].
      destruct (ProcessInGameConsole_switch _); cbn in H;
        try contradiction; destruct H as [<- | []]; reflexivity.
    + exists Consumer_chat. intros c H.
      rewrite ProcessChat_emitted in H.
      destruct (_ && _); [|destruct H].
      destruct (ProcessChat_switch _); cbn in H;
        try contradiction; destruct H as [<- | []]; reflexivity.
    + exists Consumer_text_input. intros c H.
      destruct (InputEventState.eqb _ _); [|destruct H].
      destruct H as [<- | []]. reflexivity.
    + exists Consumer_text_input. intros c [].
    + exists Consumer_shortcuts. intros c [<- | []]. reflexivity.
Qed.

(** X1. Whatever the event and the state of the game, the window that
    [Process] hands to [window_text_input_key] is never a null pointer, and a
    call is made only for a released key, with the event's button, while
    console and chat are closed. *)
Theorem window_text_input_key_only_for_found_window
    (e : InputEvent) (m : Machine) (w : option rct_window) (k : Z) :
  In (Call_window_text_input_key w k) (emitted (Process_InputEvent e) m) ->
  w = window_find_by_class (world m) WC_TEXTINPUT
  /\ w <> None
  /\ k = Button e
  /\ DeviceKind e = InputDeviceKind.Keyboard
  /\ State e = InputEventState.Release
  /\ console_IsOpen (world m) = false
  /\ gChatOpen (world m) = false.
Proof.
  intros H. destruct (Process_InputEvent_route e m) as
    [K O S | K O S | K O C | found K O C W | K O C W U | G].
  - destruct H as [H | []]. discriminate.
  - destruct H as [H | H]; [discriminate|].
    rewrite ProcessInGameConsole_emitted in H.
    destruct (_ && _); [|destruct H].
    destruct (ProcessInGameConsole_switch _); cbn in H;
      try contradiction; destruct H as [H | []]; discriminate.
  - rewrite ProcessChat_emitted in H.
    destruct (_ && _); [|destruct H].
    destruct (ProcessChat_switch _); cbn in H;
      try contradiction; destruct H as [H | []]; discriminate.
  - destruct (InputEventState.eqb _ _) eqn:R; [|destruct H].
    destruct H as [H | []]. injection H as <- <-.
    apply InputEventState_eqb_eq in R.
    rewrite W. repeat split; auto. discriminate.
  - destruct H.
  - destruct H as [H | []]. discriminate.
Qed.

(** X2. [console.Input] is called only for a key released while the console
    is open and after the shortcut manager declined the event for the
    debug-console shortcut, and only with the action of that key: never with
    [ConsoleInput::None]. *)
Theorem console_Input_only_from_its_key
    (e : InputEvent) (m : Machine) (input : ConsoleInput.t) :
  In (Call_console_Input input) (emitted (Process_InputEvent e) m) ->
  console_key input (Button e)
  /\ DeviceKind e = InputDeviceKind.Keyboard
  /\ State e = InputEventState.Release
  /\ console_IsOpen (world m) = true
  /\ shortcut_consumes e SHORTCUT_ID_DEBUG_CONSOLE (world m) = false.
Proof.
  intros H. destruct (Process_InputEvent_route e m) as
    [K O S | K O S | K O C | found K O C W | K O C W U | G].
  - destruct H as [H | []]. discriminate.
  - destruct H as [H | H]; [discriminate|].
    rewrite ProcessInGameConsole_emitted in H.
    destruct (InputDeviceKind.eqb _ _); [|destruct H].
    destruct (InputEventState.eqb _ _) eqn:R; [|destruct H].
    apply InputEventState_eqb_eq in R. cbn [andb] in H.
    pose proof (ProcessInGameConsole_switch_key (Button e)) as Key.
    destruct (ProcessInGameConsole_switch (Button e)); cbn in H;
      try contradiction; destruct H as [H | []];
      injection H as <-; (split; [apply Key; discriminate | auto]).
  - rewrite ProcessChat_emitted in H.
    destruct (_ && _); [|destruct H].
    destruct (ProcessChat_switch _); cbn in H;
      try contradiction; destruct H as [H | []]; discriminate.
  - destruct (InputEventState.eqb _ _); [|destruct H].
    destruct H as [H | []]. discriminate.
  - destruct H.
  - destruct H as [H | []]. discriminate.
Qed.

(** X3. [chat_input] is called only for a key released while the console is
    closed and chat is open, and only with the action of that key: Close for
    ESCAPE, Send for RETURN and KP_ENTER, never [ChatInput::None]. *)
Theorem chat_input_only_from_its_key
    (e : InputEvent) (m : Machine) (input : ChatInput.t) :
  In (Call_chat_input input) (emitted (Process_InputEvent e) m) ->
  chat_key input (Button e)
  /\ DeviceKind e = InputDeviceKind.Keyboard
  /\ State e = InputEventState.Release
  /\ console_IsOpen (world m) = false
  /\ gChatOpen (world m) = true.
Proof.
  intros H. destruct (Process_InputEvent_route e m) as
    [K O S | K O S | K O C | found K O C W | K O C W U | G].
  - destruct H as [H | []]. discriminate.
  - destruct H as [H | H]; [discriminate|].
    rewrite ProcessInGameConsole_emitted in H.
    destruct (_ && _); [|destruct H].
    destruct (ProcessInGameConsole_switch _); cbn in H;
      try contradiction; destruct H as [H | []]; discriminate.
  - rewrite ProcessChat_emitted in H.
    destruct (InputDeviceKind.eqb _ _); [|destruct H].
    destruct (InputEventState.eqb _ _) eqn:R; [|destruct H].
    apply InputEventState_eqb_eq in R. cbn [andb] in H.
    pose proof (ProcessChat_switch_key (Button e)) as Key.
    destruct (ProcessChat_switch (Button e)); cbn in H;
      try contradiction; destruct H as [H | []];
      injection H as <-; (split; [apply Key; discriminate | auto]).
  - destruct (InputEventState.eqb _ _); [|destruct H].
    destruct H as [H | []]. discriminate.
  - destruct H.
  - destruct H as [H | []]. discriminate.
Qed.

(** X4. A key that goes down is never forwarded to the console, to chat or
    to a text-input window: the only calls [Process] makes for an event in
    the Down state are the offer to the debug-console shortcut and the
    general shortcut dispatch, each with the event itself. *)
Theorem key_down_reaches_shortcuts_only
    (e : InputEvent) (m : Machine) (c : Call) :
  State e = InputEventState.Down ->
  In c (emitted (Process_InputEvent e) m) ->
  c = Call_ProcessEventForSpecificShortcut e SHORTCUT_ID_DEBUG_CONSOLE
  \/ c = Call_ProcessEvent e.
Proof.
  intros D H. destruct (Process_InputEvent_route e m) as
    [K O S | K O S | K O C | found K O C W | K O C W U | G].
  - destruct H as [H | []]. auto.
  - destruct H as [H | H]; [auto|].
    rewrite ProcessInGameConsole_emitted, D, andb_false_r in H. destruct H.
  - rewrite ProcessChat_emitted, D, andb_false_r in H. destruct H.
  - rewrite D in H. destruct H.
  - destruct H.
  - destruct H as [H | []]. auto.
Qed.

End Consumers.

Section Frames.

Context {P : Platform}.

(** One SDL event adds at most one event to the queue, never one of the
    keyboard, and changes nothing else. *)
Lemma QueueInputEvent_SDL_shape (e : SDL_Event) (m : Machine) :
  exists new,
    exec (QueueInputEvent_SDL e) m =
      with_self {| _lastJoystickCheck := _lastJoystickCheck (self m);
                   _joysticks := _joysticks (self m);
                   _events := _events (self m) ++ new;
                   _viewScroll := _viewScroll (self m) |} m
    /\ Forall (fun ie => DeviceKind ie <> InputDeviceKind.Keyboard) new
    /\ (List.length new <= 1)%nat.
Proof.
  assert (Z : exec (ret tt) m =
              with_self {| _lastJoystickCheck := _lastJoystickCheck (self m);
                           _joysticks := _joysticks (self m);
                           _events := _events (self m) ++ [];
                           _viewScroll := _viewScroll (self m) |} m).
  { rewrite app_nil_r. destruct m as [[t j q v] w c]. reflexivity. }
  unfold QueueInputEvent_SDL, when.
  repeat match goal with
         | |- context [if ?b then _ else _] => destruct b
         end;
    first [ exists []; split; [exact Z | split; [constructor | cbn; lia]]
          | eexists [_]; split; [reflexivity|];
            split; [repeat constructor; cbn; discriminate | cbn; lia] ].
Qed.

Lemma queue_all_SDL_shape (es : list SDL_Event) (m : Machine) :
  exists new,
    exec (queue_all_SDL es) m =
      with_self {| _lastJoystickCheck := _lastJoystickCheck (self m);
                   _joysticks := _joysticks (self m);
                   _events := _events (self m) ++ new;
                   _viewScroll := _viewScroll (self m) |} m
    /\ Forall (fun ie => DeviceKind ie <> InputDeviceKind.Keyboard) new
    /\ (List.length new <= List.length es)%nat.
Proof.
  revert m. induction es as [|e es IH]; intros m.
  - exists []. rewrite app_nil_r. split; [|split; [constructor | cbn; lia]].
    destruct m as [[t j q v] w c]. reflexivity.
  - change (queue_all_SDL (e :: es))
      with (QueueInputEvent_SDL e ;; queue_all_SDL es).
    rewrite exec_seq.
    destruct (QueueInputEvent_SDL_shape e m) as (n1 & -> & F1 & L1).
    match goal with
    | |- context [exec (queue_all_SDL es) ?x] =>
        destruct (IH x) as (n2 & -> & F2 & L2)
    end.
    exists (n1 ++ n2). cbn [with_self self world calls _lastJoystickCheck
                         _joysticks _events _viewScroll].
    rewrite <- app_assoc. split; [reflexivity|]. split.
    + apply Forall_app. split; assumption.
    + rewrite length_app. cbn [List.length] in *. lia.
Qed.

(** X5. Joystick events bypass the console, chat and text input. Whatever
    SDL events are queued by [QueueInputEvent(const SDL_Event&)] on an empty
    queue, at most one event per SDL event is queued and none is a keyboard
    event; one call of [ProcessEvents] then hands each queued event to the
    shortcut manager's [ProcessEvent], in queue order and with no other
    call, whatever is open, and leaves the queue empty. *)
Theorem joystick_events_reach_shortcuts
    (es : list SDL_Event) (m : Machine) (fuel : nat) :
  _events (self m) = [] ->
  (List.length es < fuel)%nat ->
  let queued := _events (self (exec (queue_all_SDL es) m)) in
  Forall (fun ie => DeviceKind ie <> InputDeviceKind.Keyboard) queued
  /\ (List.length queued <= List.length es)%nat
  /\ exists m',
       ProcessEvents fuel (exec (queue_all_SDL es) m) = Some m'
       /\ calls m' = calls m ++ map Call_ProcessEvent queued
       /\ _events (self m') = [].
Proof.
  intros Q L. cbv zeta.
  destruct (queue_all_SDL_shape es m) as (new & -> & F & B).
  rewrite Q. cbn [app with_self self _events].
  split; [exact F|]. split; [exact B|].
  eexists. split.
  - apply ProcessEvents_dispatches. cbn. lia.
  - cbn [with_self self calls world _events clear_events].
    rewrite dispatch_all_with_self. cbn [with_self calls].
    split; [|reflexivity]. apply dispatch_all_log. exact F.
Qed.

(* ------------------------------------------------------------------- *)
(** ** The joystick scan, in full *)

Lemma joystick_indices_S (n : nat) :
  joystick_indices (S n) = 0 :: map (fun i => i + 1) (joystick_indices n).
Proof.
  unfold joystick_indices. cbn [seq map]. f_equal.
  rewrite <- seq_shift, !map_map. apply map_ext. intros k. lia.
Qed.

(** The loop opens the indices from [i] on, one call each and in order,
    whatever the collaborators do to the world. *)
Lemma CheckJoysticks_loop_calls (n : nat) (i : Z) (m : Machine) :
  calls (exec (CheckJoysticks_loop n i) m) =
  calls m ++ map (fun k => Call_SDL_JoystickOpen (i + k)) (joystick_indices n).
Proof.
  unfold exec. revert i m. induction n as [|n IH]; intros i m.
  - cbn. symmetry. apply app_nil_r.
  - rewrite joystick_indices_S. cbn [CheckJoysticks_loop map].
    unfold do_SDL_JoystickOpen. run.
    destruct (SDL_JoystickOpen (world m) i); run; rewrite IH;
      cbn [calls]; rewrite <- app_assoc, map_map, Z.add_0_r; cbn [app];
      do 2 f_equal; apply map_ext; intros k; f_equal; lia.
Qed.

(** It adds at most one joystick per index. *)
Lemma CheckJoysticks_loop_length (n : nat) (i : Z) (m : Machine) :
  (List.length (_joysticks (self (exec (CheckJoysticks_loop n i) m)))
   <= List.length (_joysticks (self m)) + n)%nat.
Proof.
  unfold exec. revert i m. induction n as [|n IH]; intros i m.
  - cbn. lia.
  - cbn [CheckJoysticks_loop]. unfold do_SDL_JoystickOpen. run.
    destruct (SDL_JoystickOpen (world m) i); run;
      match goal with
      | |- context [CheckJoysticks_loop n (i + 1) ?x] =>
          pose proof (IH (i + 1) x) as B
      end; cbn [self _joysticks push_back_joystick] in B;
      rewrite ?length_app in B; cbn [List.length] in B; lia.
Qed.

(** Where opening a joystick does not change which joysticks open, the loop
    appends those that open, in index order. *)
Lemma CheckJoysticks_loop_collects (n : nat) (i : Z) (m : Machine) :
  (forall k w j,
     SDL_JoystickOpen (react (Call_SDL_JoystickOpen k) w) j
     = SDL_JoystickOpen w j) ->
  _joysticks (self (exec (CheckJoysticks_loop n i) m)) =
  _joysticks (self m)
  ++ flat_map (fun k => match SDL_JoystickOpen (world m) (i + k) with
                        | Some j => [j]
                        | None => []
                        end)
       (joystick_indices n).
Proof.
  intros Stable. unfold exec. revert i m.
  induction n as [|n IH]; intros i m.
  - cbn. symmetry. apply app_nil_r.
  - rewrite joystick_indices_S. cbn [CheckJoysticks_loop flat_map].
    unfold do_SDL_JoystickOpen. run. rewrite Z.add_0_r.
    assert (F : forall w',
               (forall j, SDL_JoystickOpen w' j = SDL_JoystickOpen (world m) j) ->
               flat_map (fun k => match SDL_JoystickOpen w' (i + 1 + k) with
                                  | Some j => [j]
                                  | None => []
                                  end) (joystick_indices n)
               = flat_map (fun k => match SDL_JoystickOpen (world m) (i + k) with
                                    | Some j => [j]
                                    | None => []
                                    end)
                   (map (fun k => k + 1) (joystick_indices n))).
    { intros w' E. rewrite flat_map_concat_map, (flat_map_concat_map _ (map _ _)).
      rewrite map_map. f_equal. apply map_ext. intros k. rewrite E.
      replace (i + 1 + k) with (i + (k + 1)) by lia. reflexivity. }
    destruct (SDL_JoystickOpen (world m) i) as [j|]; run; rewrite IH;
      cbn [self world _joysticks push_back_joystick];
      rewrite F by (intros; apply Stable);
      rewrite <- ?app_assoc; reflexivity.
Qed.

(** X6. A scan opens each joystick index from 0 to [SDL_NumJoysticks() - 1]
    exactly once, in increasing order, and makes no other call; the new list
    never has more entries than that count. When SDL reports no joystick, or
    fails with a negative count, the scan makes no call and leaves the list
    empty, dropping what was there. *)
Theorem CheckJoysticks_scan_opens_each_index_once (m : Machine) :
  SDL_GetTicks (world m)
    > wrap32 (_lastJoystickCheck (self m) + CHECK_INTERVAL_MS) ->
  let n := Z.to_nat (SDL_NumJoysticks (world m)) in
  let m' := exec CheckJoysticks m in
  emitted CheckJoysticks m = map Call_SDL_JoystickOpen (joystick_indices n)
  /\ (List.length (_joysticks (self m')) <= n)%nat
  /\ (SDL_NumJoysticks (world m) <= 0 ->
      _joysticks (self m') = [] /\ emitted CheckJoysticks m = []).
Proof.
  intros G. cbv zeta.
  destruct (CheckJoysticks_rescans m G) as [E _].
  assert (C : emitted CheckJoysticks m =
              map Call_SDL_JoystickOpen
                (joystick_indices (Z.to_nat (SDL_NumJoysticks (world m))))).
  { apply emitted_intro. rewrite E, CheckJoysticks_loop_calls.
    cbn [with_self calls]. f_equal. }
  split; [exact C|]. split.
  - rewrite E.
    match goal with
    | |- context [exec (CheckJoysticks_loop ?n ?i) ?x] =>
        pose proof (CheckJoysticks_loop_length n i x) as B
    end.
    cbn [with_self self clear_joysticks _joysticks List.length] in B. lia.
  - intros Z. rewrite C, E.
    replace (Z.to_nat (SDL_NumJoysticks (world m))) with 0%nat by lia.
    split; reflexivity.
Qed.

(** X7. Where opening a joystick does not change which joysticks open, a
    scan replaces the list by exactly the joysticks that open among the
    indices 0 to [SDL_NumJoysticks() - 1], in index order; the indices that
    fail to open are skipped, and none of the joysticks listed before
    survives unless it opens again. *)
Theorem CheckJoysticks_scan_collects_open_joysticks (m : Machine) :
  (forall k w j,
     SDL_JoystickOpen (react (Call_SDL_JoystickOpen k) w) j
     = SDL_JoystickOpen w j) ->
  SDL_GetTicks (world m)
    > wrap32 (_lastJoystickCheck (self m) + CHECK_INTERVAL_MS) ->
  _joysticks (self (exec CheckJoysticks m)) =
  opened_joysticks (world m) (Z.to_nat (SDL_NumJoysticks (world m))).
Proof.
  intros Stable G. destruct (CheckJoysticks_rescans m G) as [-> _].
  rewrite CheckJoysticks_loop_collects by exact Stable.
  reflexivity.
Qed.

(** X8. The throttle, away from the wrap-around. After a scan at tick [t]
    with [t + 5000] below 2^32, [CheckJoysticks] does nothing at all, no
    call and no change, as long as the tick count has not passed
    [t + 5000], whatever else happened to the world in between. *)
Theorem CheckJoysticks_throttles_after_scan (m m2 : Machine) :
  SDL_GetTicks (world m)
    > wrap32 (_lastJoystickCheck (self m) + CHECK_INTERVAL_MS) ->
  0 <= SDL_GetTicks (world m) ->
  SDL_GetTicks (world m) + CHECK_INTERVAL_MS < 2 ^ 32 ->
  self m2 = self (exec CheckJoysticks m) ->
  SDL_GetTicks (world m2) <= SDL_GetTicks (world m) + CHECK_INTERVAL_MS ->
  exec CheckJoysticks m2 = m2.
Proof.
  intros G L U S T. destruct (CheckJoysticks_rescans m G) as [_ E].
  apply CheckJoysticks_waits_without_overflow; rewrite S, E; assumption.
Qed.

End Frames.

Section ModifiersAndScrolling.

Context {P : Platform}.

(** With the constants of Input.h at 0, 1 and 2, [HandleModifiers] stores
    one bit per modifier held and then tells the virtual floor. *)
Lemma HandleModifiers_runs (m : Machine) :
  PLACE_OBJECT_MODIFIER_NONE = 0 ->
  PLACE_OBJECT_MODIFIER_SHIFT_Z = 1 ->
  PLACE_OBJECT_MODIFIER_COPY_Z = 2 ->
  let held k := test_bits (SDL_GetModState (world m)) k in
  let stored :=
    {| self := self m;
       world :=
         set_gInputPlaceObjectModifier
           (Z.b2z (held KMOD_SHIFT) + 2 * Z.b2z (held KMOD_CTRL)
            + 4 * Z.b2z (held KMOD_ALT)
            + 8 * Z.b2z (__MACOSX__ && held KMOD_GUI)) (world m);
       calls := calls m |} in
  exec HandleModifiers m =
    if VirtualFloorStyles.is_Off (virtual_floor_style (world m)) then stored
    else if held KMOD_SHIFT || held KMOD_CTRL
         then exec (call Call_virtual_floor_enable) stored
         else exec (call Call_virtual_floor_disable) stored.
Proof.
  intros N S C. cbv zeta.
  unfold HandleModifiers, or_gInputPlaceObjectModifier. rewrite N, S, C.
  run.
  destruct (test_bits (SDL_GetModState (world m)) KMOD_SHIFT),
    (test_bits (SDL_GetModState (world m)) KMOD_CTRL),
    (test_bits (SDL_GetModState (world m)) KMOD_ALT),
    __MACOSX__,
    (test_bits (SDL_GetModState (world m)) KMOD_GUI);
    cbn [andb orb Z.b2z fst snd self world calls
         set_gInputPlaceObjectModifier virtual_floor_style
         gInputPlaceObjectModifier];
    destruct (VirtualFloorStyles.is_Off (virtual_floor_style (world m)));
    reflexivity.
Qed.

Lemma HandleModifiers_emitted (m : Machine) :
  PLACE_OBJECT_MODIFIER_NONE = 0 ->
  PLACE_OBJECT_MODIFIER_SHIFT_Z = 1 ->
  PLACE_OBJECT_MODIFIER_COPY_Z = 2 ->
  emitted HandleModifiers m =
    if VirtualFloorStyles.is_Off (virtual_floor_style (world m)) then []
    else if test_bits (SDL_GetModState (world m)) KMOD_SHIFT
            || test_bits (SDL_GetModState (world m)) KMOD_CTRL
         then [Call_virtual_floor_enable]
         else [Call_virtual_floor_disable].
Proof.
  intros N S C. apply emitted_intro.
  rewrite (HandleModifiers_runs m N S C).
  destruct (VirtualFloorStyles.is_Off _).
  - cbn. symmetry. apply app_nil_r.
  - destruct (_ || _); reflexivity.
Qed.

(** X9. The virtual floor follows Shift and Ctrl. With the modifier
    constants of Input.h at NONE = 0, SHIFT_Z = 1 and COPY_Z = 2,
    [HandleModifiers] makes no call when the virtual floor style is Off, and
    otherwise exactly one: [virtual_floor_enable] when Shift or Ctrl is
    held, [virtual_floor_disable] when neither is, whatever Alt and the GUI
    key are and whatever the modifier global held before. *)
Theorem HandleModifiers_virtual_floor (m : Machine) :
  PLACE_OBJECT_MODIFIER_NONE = 0 ->
  PLACE_OBJECT_MODIFIER_SHIFT_Z = 1 ->
  PLACE_OBJECT_MODIFIER_COPY_Z = 2 ->
  let shift_or_ctrl :=
    test_bits (SDL_GetModState (world m)) KMOD_SHIFT
    || test_bits (SDL_GetModState (world m)) KMOD_CTRL in
  (VirtualFloorStyles.is_Off (virtual_floor_style (world m)) = true ->
     emitted HandleModifiers m = [])
  /\ (VirtualFloorStyles.is_Off (virtual_floor_style (world m)) = false ->
      shift_or_ctrl = true ->
      emitted HandleModifiers m = [Call_virtual_floor_enable])
  /\ (VirtualFloorStyles.is_Off (virtual_floor_style (world m)) = false ->
      shift_or_ctrl = false ->
      emitted HandleModifiers m = [Call_virtual_floor_disable]).
Proof.
  intros N S C. cbv zeta. rewrite (HandleModifiers_emitted m N S C).
  repeat apply conj.
  - intros ->. reflexivity.
  - intros -> ->. reflexivity.
  - intros -> ->. reflexivity.
Qed.

(** X10. [HandleModifiers] recomputes the place-object modifier from the
    keys held now: with the constants of Input.h at NONE = 0, SHIFT_Z = 1
    and COPY_Z = 2, the value it stores, in force when the virtual floor is
    told, is 1 for Shift plus 2 for Ctrl plus 4 for Alt plus, on macOS only,
    8 for the GUI key; it is below 16 and does not depend on the value the
    global held before. While the virtual floor style is Off nothing else
    changes; otherwise the store is followed by the single virtual-floor
    call, [virtual_floor_enable] when Shift or Ctrl is held and
    [virtual_floor_disable] when neither is, and by nothing else. *)
Theorem HandleModifiers_modifier_value (m : Machine) :
  PLACE_OBJECT_MODIFIER_NONE = 0 ->
  PLACE_OBJECT_MODIFIER_SHIFT_Z = 1 ->
  PLACE_OBJECT_MODIFIER_COPY_Z = 2 ->
  let held k := test_bits (SDL_GetModState (world m)) k in
  let value :=
    Z.b2z (held KMOD_SHIFT) + 2 * Z.b2z (held KMOD_CTRL)
    + 4 * Z.b2z (held KMOD_ALT) + 8 * Z.b2z (__MACOSX__ && held KMOD_GUI) in
  let stored :=
    {| self := self m;
       world := set_gInputPlaceObjectModifier value (world m);
       calls := calls m |} in
  let floor_call :=
    if held KMOD_SHIFT || held KMOD_CTRL
    then Call_virtual_floor_enable
    else Call_virtual_floor_disable in
  0 <= value < 16
  /\ (VirtualFloorStyles.is_Off (virtual_floor_style (world m)) = true ->
      exec HandleModifiers m = stored)
  /\ (VirtualFloorStyles.is_Off (virtual_floor_style (world m)) = false ->
      exec HandleModifiers m =
        {| self := self m;
           world :=
             react floor_call
               (set_gInputPlaceObjectModifier value (world m));
           calls := calls m ++ [floor_call] |}).
Proof.
  intros N S C. cbv zeta. split; [|split].
  - destruct (test_bits _ KMOD_SHIFT), (test_bits _ KMOD_CTRL),
      (test_bits _ KMOD_ALT), __MACOSX__, (test_bits _ KMOD_GUI); cbn; lia.
  - intros Off. rewrite (HandleModifiers_runs m N S C), Off. reflexivity.
  - intros Off. rewrite (HandleModifiers_runs m N S C), Off.
    destruct (_ || _); reflexivity.
Qed.

(** X11. The calls of [HandleViewScrolling]. In the title demo or with the
    console open it does nothing at all. Otherwise it calls
    [InputScrollViewport] exactly once, with the view-scroll vector; before
    that at most [window_unfollow_sprite] with the window of
    [window_get_main], and never when the vector is (0, 0); after that at
    most [GameHandleEdgeScroll], and never when edge scrolling is off in
    the world the scroll call left. *)
Theorem HandleViewScrolling_calls (m : Machine) :
  let idle :=
    test_bits (gScreenFlags (world m)) SCREEN_FLAGS_TITLE_DEMO = true
    \/ console_IsOpen (world m) = true in
  let scroll := Call_InputScrollViewport (_viewScroll (self m)) in
  let unfollow := Call_window_unfollow_sprite (window_get_main (world m)) in
  (idle -> exec HandleViewScrolling m = m)
  /\ (~ idle ->
      exists pre post,
        emitted HandleViewScrolling m = pre ++ scroll :: post
        /\ (pre = [] \/ pre = [unfollow])
        /\ (x (_viewScroll (self m)) = 0 -> y (_viewScroll (self m)) = 0 ->
            pre = [])
        /\ (post = [] \/ post = [Call_GameHandleEdgeScroll])
        /\ (edge_scrolling
              (fold_left (fun w c => react c w) (pre ++ [scroll]) (world m))
            = false -> post = [])).
Proof.
  cbv zeta. split.
  - intros [T | O]; unfold HandleViewScrolling; run.
    + rewrite T. reflexivity.
    + destruct (test_bits _ _); [reflexivity|]. run. rewrite O. reflexivity.
  - intros I.
    destruct (test_bits (gScreenFlags (world m)) SCREEN_FLAGS_TITLE_DEMO) eqn:T;
      [exfalso; apply I; auto|].
    destruct (console_IsOpen (world m)) eqn:O; [exfalso; apply I; auto|].
    unfold emitted, HandleViewScrolling. run. rewrite T. run. rewrite O. run.
    destruct ((is_not_null (window_get_main (world m))
               && negb (x (_viewScroll (self m)) =? 0))
              || negb (y (_viewScroll (self m)) =? 0)) eqn:Cnd; run.
    + exists [Call_window_unfollow_sprite (window_get_main (world m))].
      cbn [app fold_left].
      destruct (edge_scrolling _) eqn:Edge; run; split_ifs; run;
        rewrite <- ?app_assoc, skipn_length_app; cbn [app];
        eexists; (split; [reflexivity|]);
        (split; [auto|]);
        (split; [intros X Y; rewrite X, Y, andb_false_r in Cnd; discriminate|]);
        (split; [auto | first [reflexivity | discriminate]]).
    + exists []. cbn [app fold_left].
      destruct (edge_scrolling _) eqn:Edge; run; split_ifs; run;
        rewrite <- ?app_assoc, skipn_length_app; cbn [app];
        eexists; (split; [reflexivity|]);
        (split; [auto|]); (split; [auto|]);
        (split; [auto | first [reflexivity | discriminate]]).
Qed.

Lemma CheckJoysticks_viewScroll (m : Machine) :
  _viewScroll (self (exec CheckJoysticks m)) = _viewScroll (self m).
Proof.
  destruct (Z.gtb_spec (SDL_GetTicks (world m))
              (wrap32 (_lastJoystickCheck (self m) + CHECK_INTERVAL_MS)))
    as [G | G].
  - destruct (CheckJoysticks_rescans m) as [-> _]; [lia|].
    match goal with
    | |- context [exec (CheckJoysticks_loop ?n ?i) ?x] =>
        destruct (CheckJoysticks_loop_keeps n i x) as (_ & _ & V); rewrite V
    end.
    reflexivity.
  - rewrite CheckJoysticks_waits by exact G. reflexivity.
Qed.

(** X12. One frame. With fuel for the tests of the event loop,
    [Process()] returns; the machine it leaves is that of the joystick scan,
    the modifiers, the dispatch of the queued events front to back and the
    view scrolling, in that order; the queue is empty, and the view-scroll
    vector is the one the frame started with. *)
Theorem Process_frame (fuel : nat) (m : Machine) :
  (List.length (_events (self m)) < fuel)%nat ->
  let prepared := exec HandleModifiers (exec CheckJoysticks m) in
  let dispatched :=
    with_self (clear_events (self prepared))
      (dispatch_all (_events (self m)) prepared) in
  Process fuel m = Some (exec HandleViewScrolling dispatched)
  /\ _events (self (exec HandleViewScrolling dispatched)) = []
  /\ _viewScroll (self (exec HandleViewScrolling dispatched))
     = _viewScroll (self m).
Proof.
  intros L. cbv zeta. unfold Process. rewrite exec_seq.
  set (m1 := exec HandleModifiers (exec CheckJoysticks m)).
  assert (Q : _events (self m1) = _events (self m)).
  { unfold m1. rewrite HandleModifiers_self. apply CheckJoysticks_events. }
  assert (V : _viewScroll (self m1) = _viewScroll (self m)).
  { unfold m1. rewrite HandleModifiers_self. apply CheckJoysticks_viewScroll. }
  rewrite ProcessEvents_dispatches by (rewrite Q; exact L).
  rewrite Q, !HandleViewScrolling_self.
  cbn [with_self self clear_events _events _viewScroll].
  repeat split. exact V.
Qed.

End ModifiersAndScrolling.

(* ===================================================================== *)
(** * Further properties of the descriptors *)

Lemma bits_subset_refl (a : Z) : bits_subset a a.
Proof. apply Z.land_diag. Qed.

Lemma bits_subset_lor (a b c : Z) :
  bits_subset a c -> bits_subset b c -> bits_subset (Z.lor a b) c.
Proof.
  unfold bits_subset. intros A B.
  rewrite Z.land_lor_distr_l, A, B. reflexivity.
Qed.

Lemma bits_subset_lor_l (a b c : Z) :
  bits_subset a b -> bits_subset a (Z.lor b c).
Proof.
  unfold bits_subset. intros A. apply Z.bits_inj'. intros n _.
  apply (f_equal (fun z => Z.testbit z n)) in A.
  rewrite Z.land_spec in A. rewrite Z.land_spec, Z.lor_spec.
  destruct (Z.testbit a n), (Z.testbit b n), (Z.testbit c n);
    cbn in *; congruence.
Qed.

Lemma bits_subset_lor_r (a b c : Z) :
  bits_subset a c -> bits_subset a (Z.lor b c).
Proof. intros A. rewrite Z.lor_comm. apply bits_subset_lor_l, A. Qed.

Lemma bits_subset_testbit (a b i : Z) :
  bits_subset a b -> Z.testbit a i = true -> Z.testbit b i = true.
Proof.
  unfold bits_subset. intros S A.
  apply (f_equal (fun z => Z.testbit z i)) in S.
  rewrite Z.land_spec, A in S. exact S.
Qed.

Ltac find_bits :=
  first [ apply bits_subset_refl
        | apply bits_subset_lor_l; find_bits
        | apply bits_subset_lor_r; find_bits ].

Section DescriptorsFurther.

Context {D : RideData}.
Local Open Scope cbits_scope.

(** X13. Every flag of the alternate descriptor is a flag of the main one,
    whatever bits the flag constants of RideData.h stand for: the alternate
    type has no capability that the main type lacks. *)
Theorem AltRTD_flags_subset :
  bits_subset (Flags MultiDimensionRollerCoasterAltRTD)
    (Flags MultiDimensionRollerCoasterRTD)
  /\ forall i,
       Z.testbit (Flags MultiDimensionRollerCoasterAltRTD) i = true ->
       Z.testbit (Flags MultiDimensionRollerCoasterRTD) i = true.
Proof.
  assert (S : bits_subset (Flags MultiDimensionRollerCoasterAltRTD)
                (Flags MultiDimensionRollerCoasterRTD)).
  { cbn [Flags MultiDimensionRollerCoasterAltRTD
           MultiDimensionRollerCoasterRTD].
    repeat apply bits_subset_lor; find_bits. }
  split; [exact S|]. intros i. apply bits_subset_testbit, S.
Qed.

(** X14. Every track piece enabled on the alternate descriptor is enabled
    on the main one, but for the inverted inline twist and the inverted
    quarter loop, whatever the numbers of the track pieces are: the
    alternate track is the main track with the two inversions turned over
    and the station end, lift hill, small helix and the uninverted twist
    and quarter loop left out. *)
Theorem AltRTD_track_pieces_subset :
  bits_subset (EnabledTrackPieces MultiDimensionRollerCoasterAltRTD)
    (EnabledTrackPieces MultiDimensionRollerCoasterRTD
     .| bit TRACK_INLINE_TWIST_INVERTED .| bit TRACK_QUARTER_LOOP_INVERTED)
  /\ forall i,
       Z.testbit (EnabledTrackPieces MultiDimensionRollerCoasterAltRTD) i
       = true ->
       Z.testbit (EnabledTrackPieces MultiDimensionRollerCoasterRTD) i = true
       \/ Z.testbit (bit TRACK_INLINE_TWIST_INVERTED) i = true
       \/ Z.testbit (bit TRACK_QUARTER_LOOP_INVERTED) i = true.
Proof.
  assert (S : bits_subset
                (EnabledTrackPieces MultiDimensionRollerCoasterAltRTD)
                (EnabledTrackPieces MultiDimensionRollerCoasterRTD
                 .| bit TRACK_INLINE_TWIST_INVERTED
                 .| bit TRACK_QUARTER_LOOP_INVERTED)).
  { cbn [EnabledTrackPieces MultiDimensionRollerCoasterAltRTD
           MultiDimensionRollerCoasterRTD].
    repeat apply bits_subset_lor; find_bits. }
  split; [exact S|]. intros i A.
  pose proof (bits_subset_testbit _ _ i S A) as B.
  rewrite !Z.lor_spec in B.
  apply orb_true_iff in B. destruct B as [B | B]; [|auto].
  apply orb_true_iff in B. destruct B as [B | B]; auto.
Qed.

(** X15. The alternate descriptor cannot hold a station: where the station
    end has a bit number of its own, not negative and not that of one of
    the thirteen pieces of the alternate descriptor, its bit is set in the
    enabled track pieces of the main descriptor and clear in those of the
    alternate one, so the two bit sets differ. *)
Theorem AltRTD_has_no_station_end :
  0 <= TRACK_STATION_END ->
  ~ In TRACK_STATION_END
      [ TRACK_STRAIGHT; TRACK_FLAT_ROLL_BANKING; TRACK_SLOPE;
        TRACK_SLOPE_STEEP; TRACK_S_BEND; TRACK_CURVE_SMALL; TRACK_CURVE;
        TRACK_BRAKES; TRACK_ON_RIDE_PHOTO; TRACK_SLOPE_VERTICAL;
        TRACK_BLOCK_BRAKES; TRACK_INLINE_TWIST_INVERTED;
        TRACK_QUARTER_LOOP_INVERTED ] ->
  Z.testbit (EnabledTrackPieces MultiDimensionRollerCoasterRTD)
    TRACK_STATION_END = true
  /\ Z.testbit (EnabledTrackPieces MultiDimensionRollerCoasterAltRTD)
       TRACK_STATION_END = false
  /\ EnabledTrackPieces MultiDimensionRollerCoasterAltRTD
     <> EnabledTrackPieces MultiDimensionRollerCoasterRTD.
Proof.
  intros H N. split; [|split].
  - cbn [EnabledTrackPieces MultiDimensionRollerCoasterRTD].
    rewrite !Z.lor_spec, !testbit_bit by exact H.
    rewrite Z.eqb_refl, ?orb_true_r. cbn. rewrite ?orb_true_r. reflexivity.
  - rewrite EnabledTrackPieces_alt_testbit by exact H.
    apply not_true_is_false. intros X. apply existsb_exists in X.
    destruct X as (p & I & Q). apply Z.eqb_eq in Q. subst p. exact (N I).
  - apply EnabledTrackPieces_differ; assumption.
Qed.

End DescriptorsFurther.

(* ===================================================================== *)
(** * The further properties at concrete inputs *)

(** A key released over the text-input window 5. *)
Lemma window_text_input_key_only_for_found_window_witness :
  In (Call_window_text_input_key (Some 5%nat) 97)
    (emitted (Process_InputEvent (P := still_platform)
                (key 97 InputEventState.Release))
       (boot fresh_manager typing_world))
  /\ Some 5%nat <> @None rct_window.
Proof.
  assert (I : In (Call_window_text_input_key (Some 5%nat) 97)
                (emitted (Process_InputEvent (P := still_platform)
                            (key 97 InputEventState.Release))
                   (boot fresh_manager typing_world)))
    by (left; reflexivity).
  split; [exact I|].
  exact (proj1 (proj2 (window_text_input_key_only_for_found_window
                         (P := still_platform) _ _ _ _ I))).
Defined.

(** UP released in the open console. *)
Lemma console_Input_only_from_its_key_witness :
  In (Call_console_Input ConsoleInput.HistoryPrevious)
    (emitted (Process_InputEvent (P := still_platform)
                (key SDLK_UP InputEventState.Release))
       (boot fresh_manager console_world))
  /\ console_key ConsoleInput.HistoryPrevious SDLK_UP.
Proof.
  assert (I : In (Call_console_Input ConsoleInput.HistoryPrevious)
                (emitted (Process_InputEvent (P := still_platform)
                            (key SDLK_UP InputEventState.Release))
                   (boot fresh_manager console_world)))
    by (right; left; reflexivity).
  split; [exact I|].
  exact (proj1 (console_Input_only_from_its_key
                  (P := still_platform) _ _ _ I)).
Defined.

(** ESCAPE released in open chat. *)
Lemma chat_input_only_from_its_key_witness :
  In (Call_chat_input ChatInput.Close)
    (emitted (Process_InputEvent (P := still_platform)
                (key SDLK_ESCAPE InputEventState.Release))
       (boot fresh_manager chat_world))
  /\ chat_key ChatInput.Close SDLK_ESCAPE.
Proof.
  assert (I : In (Call_chat_input ChatInput.Close)
                (emitted (Process_InputEvent (P := still_platform)
                            (key SDLK_ESCAPE InputEventState.Release))
                   (boot fresh_manager chat_world)))
    by (left; reflexivity).
  split; [exact I|].
  exact (proj1 (chat_input_only_from_its_key (P := still_platform) _ _ _ I)).
Defined.

(** UP pressed in the open console is only offered to the shortcut. *)
Lemma key_down_reaches_shortcuts_only_witness :
  State (key SDLK_UP InputEventState.Down) = InputEventState.Down
  /\ In (Call_ProcessEventForSpecificShortcut
          (key SDLK_UP InputEventState.Down)
          (SHORTCUT_ID_DEBUG_CONSOLE (Platform := still_platform)))
       (emitted (Process_InputEvent (P := still_platform)
                   (key SDLK_UP InputEventState.Down))
          (boot fresh_manager console_world))
  /\ (Call_ProcessEventForSpecificShortcut
        (key SDLK_UP InputEventState.Down)
        (SHORTCUT_ID_DEBUG_CONSOLE (Platform := still_platform))
      = Call_ProcessEventForSpecificShortcut
          (key SDLK_UP InputEventState.Down)
          (SHORTCUT_ID_DEBUG_CONSOLE (Platform := still_platform))
      \/ Call_ProcessEventForSpecificShortcut
           (key SDLK_UP InputEventState.Down)
           (SHORTCUT_ID_DEBUG_CONSOLE (Platform := still_platform))
         = Call_ProcessEvent (key SDLK_UP InputEventState.Down)).
Proof.
  split; [reflexivity|].
  assert (I : In (Call_ProcessEventForSpecificShortcut
                    (key SDLK_UP InputEventState.Down)
                    (SHORTCUT_ID_DEBUG_CONSOLE (Platform := still_platform)))
                (emitted (Process_InputEvent (P := still_platform)
                            (key SDLK_UP InputEventState.Down))
                   (boot fresh_manager console_world)))
    by (left; reflexivity).
  split; [exact I|].
  exact (key_down_reaches_shortcuts_only (P := still_platform)
           (key SDLK_UP InputEventState.Down)
           (boot fresh_manager console_world) _ eq_refl I).
Defined.

(** A button press, a key press and a hat motion, polled while the console
    is open: the two joystick events reach the shortcut manager. *)
Lemma joystick_events_reach_shortcuts_witness :
  _events (self (boot fresh_manager console_world)) = []
  /\ (List.length
        [ {| type := SDL_JOYBUTTONDOWN; jhat_value := 0; jbutton_button := 2 |};
          {| type := 0x300; jhat_value := 0; jbutton_button := 0 |};
          {| type := SDL_JOYHATMOTION; jhat_value := 1; jbutton_button := 0 |} ]
      < 4)%nat
  /\ exists m',
       ProcessEvents (P := still_platform) 4
         (exec (queue_all_SDL
                  [ {| type := SDL_JOYBUTTONDOWN; jhat_value := 0;
                       jbutton_button := 2 |};
                    {| type := 0x300; jhat_value := 0; jbutton_button := 0 |};
                    {| type := SDL_JOYHATMOTION; jhat_value := 1;
                       jbutton_button := 0 |} ])
            (boot fresh_manager console_world)) = Some m'
       /\ calls m' =
          [] ++ map Call_ProcessEvent
                  (_events (self (exec (queue_all_SDL
                     [ {| type := SDL_JOYBUTTONDOWN; jhat_value := 0;
                          jbutton_button := 2 |};
                       {| type := 0x300; jhat_value := 0; jbutton_button := 0 |};
                       {| type := SDL_JOYHATMOTION; jhat_value := 1;
                          jbutton_button := 0 |} ])
                     (boot fresh_manager console_world))))
       /\ _events (self m') = [].
Proof.
  split; [reflexivity|]. split; [cbn; lia|].
  apply (joystick_events_reach_shortcuts (P := still_platform)
           [ {| type := SDL_JOYBUTTONDOWN; jhat_value := 0; jbutton_button := 2 |};
             {| type := 0x300; jhat_value := 0; jbutton_button := 0 |};
             {| type := SDL_JOYHATMOTION; jhat_value := 1; jbutton_button := 0 |} ]
           (boot fresh_manager console_world) 4);
    [reflexivity | cbn; lia].
Defined.

(** The first scan, at tick 6000 with three joysticks attached. *)
Lemma CheckJoysticks_scan_opens_each_index_once_witness :
  SDL_GetTicks joystick_world
    > wrap32 (_lastJoystickCheck fresh_manager + CHECK_INTERVAL_MS)
  /\ emitted (CheckJoysticks (P := still_platform))
       (boot fresh_manager joystick_world)
     = map Call_SDL_JoystickOpen (joystick_indices 3).
Proof.
  split; [reflexivity|].
  apply (CheckJoysticks_scan_opens_each_index_once (P := still_platform)
           (boot fresh_manager joystick_world)).
  reflexivity.
Defined.

(** Of the three joysticks the first and the third open. *)
Lemma CheckJoysticks_scan_collects_open_joysticks_witness :
  (forall k w j,
     SDL_JoystickOpen
       (react (Platform := still_platform) (Call_SDL_JoystickOpen k) w) j
     = SDL_JoystickOpen w j)
  /\ SDL_GetTicks joystick_world
       > wrap32 (_lastJoystickCheck fresh_manager + CHECK_INTERVAL_MS)
  /\ _joysticks (self (exec (CheckJoysticks (P := still_platform))
                         (boot fresh_manager joystick_world)))
     = opened_joysticks joystick_world 3.
Proof.
  split; [intros; reflexivity|]. split; [reflexivity|].
  apply (CheckJoysticks_scan_collects_open_joysticks (P := still_platform)
           (boot fresh_manager joystick_world));
    [intros; reflexivity | reflexivity].
Defined.

(** A second call in the tick of the first scan does nothing. *)
Lemma CheckJoysticks_throttles_after_scan_witness :
  SDL_GetTicks joystick_world
    > wrap32 (_lastJoystickCheck fresh_manager + CHECK_INTERVAL_MS)
  /\ 0 <= SDL_GetTicks joystick_world
  /\ SDL_GetTicks joystick_world + CHECK_INTERVAL_MS < 2 ^ 32
  /\ exec (CheckJoysticks (P := still_platform))
       (exec (CheckJoysticks (P := still_platform))
          (boot fresh_manager joystick_world))
     = exec (CheckJoysticks (P := still_platform))
         (boot fresh_manager joystick_world).
Proof.
  split; [reflexivity|].
  split; [apply Z.leb_le; reflexivity|]. split; [reflexivity|].
  apply (CheckJoysticks_throttles_after_scan (P := still_platform)
           (boot fresh_manager joystick_world));
    [ reflexivity | apply Z.leb_le; reflexivity | reflexivity | reflexivity
    | apply Z.leb_le; reflexivity ].
Defined.

(** Shift and Alt held with a glass floor: the floor is enabled. *)
Lemma HandleModifiers_virtual_floor_witness :
  PLACE_OBJECT_MODIFIER_NONE (Platform := still_platform) = 0
  /\ PLACE_OBJECT_MODIFIER_SHIFT_Z (Platform := still_platform) = 1
  /\ PLACE_OBJECT_MODIFIER_COPY_Z (Platform := still_platform) = 2
  /\ emitted (HandleModifiers (P := still_platform))
       (boot fresh_manager shift_alt_world)
     = [Call_virtual_floor_enable].
Proof.
  repeat (split; [reflexivity|]).
  apply (HandleModifiers_virtual_floor (P := still_platform)
           (boot fresh_manager shift_alt_world) eq_refl eq_refl eq_refl);
    reflexivity.
Defined.

(** Shift and Alt held, the global at 2 before: the modifier becomes
    1 + 4 and the floor is enabled, by that one call. *)
Lemma HandleModifiers_modifier_value_witness :
  PLACE_OBJECT_MODIFIER_NONE (Platform := still_platform) = 0
  /\ PLACE_OBJECT_MODIFIER_SHIFT_Z (Platform := still_platform) = 1
  /\ PLACE_OBJECT_MODIFIER_COPY_Z (Platform := still_platform) = 2
  /\ VirtualFloorStyles.is_Off (virtual_floor_style shift_alt_world) = false
  /\ exec (HandleModifiers (P := still_platform))
       (boot fresh_manager shift_alt_world)
     = {| self := fresh_manager;
          world := set_gInputPlaceObjectModifier 5 shift_alt_world;
          calls := [Call_virtual_floor_enable] |}.
Proof.
  repeat (split; [reflexivity|]).
  exact (proj2 (proj2 (HandleModifiers_modifier_value
                         (P := still_platform)
                         (boot fresh_manager shift_alt_world)
                         eq_refl eq_refl eq_refl)) eq_refl).
Defined.

(** A horizontal scroll with a main window and edge scrolling on. *)
Lemma HandleViewScrolling_calls_witness :
  exists pre post,
    emitted (HandleViewScrolling (P := still_platform))
      (boot horizontal_scroll_manager edge_world)
    = pre ++ Call_InputScrollViewport {| x := 3; y := 0 |} :: post
    /\ (pre = [] \/ pre = [Call_window_unfollow_sprite (Some 1%nat)]).
Proof.
  destruct (proj2 (HandleViewScrolling_calls (P := still_platform)
                     (boot horizontal_scroll_manager edge_world)))
    as (pre & post & E & U & _).
  - intros [H | H]; discriminate H.
  - exists pre, post. split; [exact E | exact U].
Defined.

(** A frame with one key event queued. *)
Lemma Process_frame_witness :
  (List.length
     (_events (push_event (key SDLK_ESCAPE InputEventState.Release)
                 fresh_manager)) < 2)%nat
  /\ exists m',
       Process (P := still_platform) 2
         (boot (push_event (key SDLK_ESCAPE InputEventState.Release)
                  fresh_manager) quiet_world) = Some m'
       /\ _events (self m') = [].
Proof.
  split; [cbn; lia|].
  destruct (Process_frame (P := still_platform) 2
              (boot (push_event (key SDLK_ESCAPE InputEventState.Release)
                       fresh_manager) quiet_world)) as (E & Q & _).
  - cbn. lia.
  - eexists. split; [exact E | exact Q].
Defined.

(** The alternate flags within the main ones, on the sample constants. *)
Lemma AltRTD_flags_subset_witness :
  Z.testbit (Flags (MultiDimensionRollerCoasterAltRTD (D := sample_ride_data)))
    8 = true
  /\ Z.testbit (Flags (MultiDimensionRollerCoasterRTD (D := sample_ride_data)))
       8 = true.
Proof.
  assert (A : Z.testbit
                (Flags (MultiDimensionRollerCoasterAltRTD
                          (D := sample_ride_data))) 8 = true)
    by reflexivity.
  split; [exact A|].
  exact (proj2 (AltRTD_flags_subset (D := sample_ride_data)) 8 A).
Defined.

(** The station end on the sample constants. *)
Lemma AltRTD_has_no_station_end_witness :
  0 <= TRACK_STATION_END (RideData := sample_ride_data)
  /\ Z.testbit
       (EnabledTrackPieces
          (MultiDimensionRollerCoasterAltRTD (D := sample_ride_data)))
       (TRACK_STATION_END (RideData := sample_ride_data)) = false.
Proof.
  split; [apply Z.leb_le; reflexivity|].
  apply (AltRTD_has_no_station_end (D := sample_ride_data)).
  - apply Z.leb_le. reflexivity.
  - cbn. intros H.
    repeat (destruct H as [H | H]; [discriminate H|]). exact H.
Defined.

(** ESCAPE released with console and chat both open takes the console's
    route; the same key with the console closed takes chat's; a key released
    while a widget text box is in use is dropped. *)
Lemma Process_InputEvent_routes_witness :
  emitted (Process_InputEvent (P := still_platform)
             (key SDLK_ESCAPE InputEventState.Release))
    (boot fresh_manager console_chat_world)
  = [ Call_ProcessEventForSpecificShortcut
        (key SDLK_ESCAPE InputEventState.Release)
        (SHORTCUT_ID_DEBUG_CONSOLE (Platform := still_platform));
      Call_console_Input ConsoleInput.LineClear ]
  /\ emitted (Process_InputEvent (P := still_platform)
                (key SDLK_ESCAPE InputEventState.Release))
       (boot fresh_manager chat_world)
     = [Call_chat_input ChatInput.Close]
  /\ emitted (Process_InputEvent (P := still_platform)
                (key 97 InputEventState.Release))
       (boot fresh_manager text_box_world)
     = [].
Proof.
  split; [|split].
  - exact (proj2 (proj1 (Process_InputEvent_routes (P := still_platform)
                           (key SDLK_ESCAPE InputEventState.Release)
                           (boot fresh_manager console_chat_world))
                    eq_refl eq_refl)).
  - exact (proj2 (proj1 (proj2 (Process_InputEvent_routes
                                  (P := still_platform)
                                  (key SDLK_ESCAPE InputEventState.Release)
                                  (boot fresh_manager chat_world)))
                    eq_refl eq_refl eq_refl)).
  - exact (proj2 (proj1 (proj2 (proj2 (proj2
                    (Process_InputEvent_routes (P := still_platform)
                       (key 97 InputEventState.Release)
                       (boot fresh_manager text_box_world)))))
                    eq_refl eq_refl eq_refl eq_refl eq_refl)).
Defined.

(** C3 as first stated fails twice. A keyboard event while chat is open does
    not go to the chat handler when the console is open too: ESCAPE released
    would close chat, but the console clears its line and chat hears
    nothing. And a keyboard event that no text-input window captures, with
    console and chat closed, does not reach the general shortcut dispatch
    while a widget text box is in use: it reaches no consumer at all. *)
Lemma Process_InputEvent_routes_counterexample :
  (DeviceKind (key SDLK_ESCAPE InputEventState.Release)
   = InputDeviceKind.Keyboard
   /\ gChatOpen console_chat_world = true
   /\ emitted (ProcessChat (P := still_platform)
                 (key SDLK_ESCAPE InputEventState.Release))
        (boot fresh_manager console_chat_world)
      = [Call_chat_input ChatInput.Close]
   /\ emitted (Process_InputEvent (P := still_platform)
                 (key SDLK_ESCAPE InputEventState.Release))
        (boot fresh_manager console_chat_world)
      = [ Call_ProcessEventForSpecificShortcut
            (key SDLK_ESCAPE InputEventState.Release)
            (SHORTCUT_ID_DEBUG_CONSOLE (Platform := still_platform));
          Call_console_Input ConsoleInput.LineClear ]
   /\ forall input,
        ~ In (Call_chat_input input)
            (emitted (Process_InputEvent (P := still_platform)
                        (key SDLK_ESCAPE InputEventState.Release))
               (boot fresh_manager console_chat_world)))
  /\ (DeviceKind (key 97 InputEventState.Release) = InputDeviceKind.Keyboard
      /\ console_IsOpen text_box_world = false
      /\ gChatOpen text_box_world = false
      /\ window_find_by_class text_box_world
           (WC_TEXTINPUT (Platform := still_platform)) = None
      /\ emitted (Process_InputEvent (P := still_platform)
                    (key 97 InputEventState.Release))
           (boot fresh_manager text_box_world)
         = []
      /\ ~ In (Call_ProcessEvent (key 97 InputEventState.Release))
             (emitted (Process_InputEvent (P := still_platform)
                         (key 97 InputEventState.Release))
                (boot fresh_manager text_box_world))).
Proof.
  split.
  - repeat (split; [reflexivity|]).
    intros input [H | [H | []]]; discriminate H.
  - repeat (split; [reflexivity|]). intros [].
Qed.
